(** * The penguin notebook: does [sex] predict [species]?

    A shallow embedding of [pipelines/exercise.ipynb].  The notebook has two
    code cells.  Cell 1 reads [../data/penguins.csv] into a pandas
    [DataFrame] and prints it.  Cell 2 recodes the [sex] and [species]
    columns as category codes, splits the rows into a training and a test
    part ([test_size=0.3], [random_state=42]), fits a logistic regression
    of the species code on the sex code, scores it on the held-out rows
    and prints the accuracy and a verdict.

    The notebook is a straight line of calls into pandas, numpy and
    scikit-learn.  Each call is modelled by a function of the same name
    that follows the documented behaviour of the library routine at the
    arguments the notebook passes.  The parts that are numerical engines
    (the CSV tokenizer with its type inference, the Mersenne-Twister word
    generator, the L-BFGS solver behind [LogisticRegression]) are taken as
    an interface, class [Libraries] below, and every result holds for all
    of its implementations.

    Part I holds the definitions, Part II the lemmas and the theorems. *)

From Stdlib Require Import String Ascii.
From Stdlib Require Import ZArith QArith Qround Bool Arith Lia List Permutation SpecFloat.
Import ListNotations.
Close Scope Q_scope.

Set Implicit Arguments.

(* ================================================================== *)
(** * Part I: definitions                                              *)
(* ================================================================== *)

(** ** Python floats: IEEE 754 binary64 *)

Module Float64.

Definition prec : Z := 53.
Definition emax : Z := 1024.

(** [float(z)] for a Python int. *)
Definition of_int (z : Z) : spec_float := binary_normalize prec emax z 0 false.

Definition mul : spec_float -> spec_float -> spec_float := SFmul prec emax.
Definition div : spec_float -> spec_float -> spec_float := SFdiv prec emax.

(** [a > b]; false as soon as one side is NaN. *)
Definition gt (a b : spec_float) : bool := SFltb b a.

(** The literal [0.5], exactly [2^52 * 2^-53]. *)
Definition lit_0_5 : spec_float := S754_finite false 4503599627370496 (-53).

(** The literal [0.3], i.e. the double nearest to 3/10. *)
Definition lit_0_3 : spec_float := S754_finite false 5404319552844595 (-54).

(** [math.ceil]: the least integer not below the float; Python raises on
    NaN and on the infinities, here [None]. *)
Definition ceil (f : spec_float) : option Z :=
  match f with
  | S754_zero _ => Some 0%Z
  | S754_finite s m e =>
      let v := if s then Zneg m else Zpos m in
      Some (if (0 <=? e)%Z then v * 2 ^ e else - ((- v) / 2 ^ (- e)))%Z
  | S754_infinity _ | S754_nan => None
  end.

Definition isnan (f : spec_float) : bool :=
  match f with S754_nan => true | _ => false end.

End Float64.

(** ** Exceptions and results *)

Inductive Exception : Type :=
| FileNotFoundError (path : string)
| ParserError (msg : string)
| EmptyDataError
| UnicodeDecodeError
| KeyError (key : string)
| IndexError
| ValueError (msg : string).

Inductive Result (A : Type) : Type :=
| Ok (a : A)
| Raise (e : Exception).
Arguments Ok {A} a.
Arguments Raise {A} e.

Definition try_bind {A B} (r : Result A) (f : A -> Result B) : Result B :=
  match r with
  | Ok a => f a
  | Raise e => Raise e
  end.

Declare Scope result_scope.
Delimit Scope result_scope with result.
Notation "x <-? r ; k" := (try_bind r (fun x => k))
  (at level 61, r at next level, right associativity) : result_scope.

(** ** pandas *)

Module pandas.

(** A column.  [read_csv] infers one dtype per column: [object] for text
    (a missing field is NaN, here [None]), [float64] (missing is the NaN
    float), [int64] and [bool].  Category codes are small signed
    integers; pandas picks an integer width that fits the number of
    categories, so they never wrap and [IntS] holds them too. *)
Inductive Series : Type :=
| ObjectS (values : list (option string))
| FloatS (values : list spec_float)
| IntS (values : list Z)
| BoolS (values : list bool).

(** One entry of a column. *)
Inductive Scalar : Type :=
| Str (s : string)
| Float (f : spec_float)
| Int (z : Z)
| Bool (b : bool).

(** [pd.isna(x)] *)
Definition isna (x : Scalar) : bool :=
  match x with
  | Float f => Float64.isnan f
  | _ => false
  end.

(** [x == y] for two entries of one column. *)
Definition Scalar_eqb (x y : Scalar) : bool :=
  match x, y with
  | Str s, Str t => String.eqb s t
  | Float f, Float g => SFeqb f g
  | Int a, Int b => Z.eqb a b
  | Bool a, Bool b => Bool.eqb a b
  | _, _ => false
  end.

(** A table: named columns in file order over the positions 0..n-1. *)
Definition DataFrame : Type := list (string * Series).

(** Positional selection [l[indices]]; an index past the end is Python's
    IndexError, here [None]. *)
Fixpoint take {A} (l : list A) (indices : list nat) : option (list A) :=
  match indices with
  | [] => Some []
  | i :: rest =>
      match nth_error l i, take l rest with
      | Some x, Some xs => Some (x :: xs)
      | _, _ => None
      end
  end.

Definition lastn {A} (n : nat) (l : list A) : list A :=
  skipn (length l - n) l.

Module Series_.

Definition len (s : Series) : nat :=
  match s with
  | ObjectS v => length v
  | FloatS v => length v
  | IntS v => length v
  | BoolS v => length v
  end.

Definition lift_take {A} (mk : list A -> Series) (v : list A)
    (indices : list nat) : Result Series :=
  match take v indices with
  | Some v' => Ok (mk v')
  | None => Raise IndexError
  end.

(** [s.iloc[indices]] *)
Definition iloc (s : Series) (indices : list nat) : Result Series :=
  match s with
  | ObjectS v => lift_take ObjectS v indices
  | FloatS v => lift_take FloatS v indices
  | IntS v => lift_take IntS v indices
  | BoolS v => lift_take BoolS v indices
  end.

(** The first [n] and the last [n] entries, as the printer keeps them. *)
Definition head_tail (n : nat) (s : Series) : Series :=
  match s with
  | ObjectS v => ObjectS (firstn n v ++ lastn n v)
  | FloatS v => FloatS (firstn n v ++ lastn n v)
  | IntS v => IntS (firstn n v ++ lastn n v)
  | BoolS v => BoolS (firstn n v ++ lastn n v)
  end.

(** [s.iat[i]]: the entry at position [i].  A missing entry of a text
    column is the NaN float, as in pandas. *)
Definition iat (s : Series) (i : nat) : option Scalar :=
  match s with
  | ObjectS v =>
      option_map (fun o => match o with
                           | Some t => Str t
                           | None => Float S754_nan
                           end) (nth_error v i)
  | FloatS v => option_map Float (nth_error v i)
  | IntS v => option_map Int (nth_error v i)
  | BoolS v => option_map Bool (nth_error v i)
  end.

End Series_.

(** *** Column access *)

Fixpoint lookup (df : DataFrame) (key : string) : option Series :=
  match df with
  | [] => None
  | (name, s) :: rest => if String.eqb name key then Some s else lookup rest key
  end.

(** [df[key]] *)
Definition getitem (df : DataFrame) (key : string) : Result Series :=
  match lookup df key with
  | Some s => Ok s
  | None => Raise (KeyError key)
  end.

(** [df[[k1, ..., kn]]]: a new table holding the listed columns. *)
Fixpoint getitem_list (df : DataFrame) (keys : list string) : Result DataFrame :=
  match keys with
  | [] => Ok []
  | key :: rest =>
      (s <-? getitem df key ;
       cols <-? getitem_list df rest ;
       Ok ((key, s) :: cols))%result
  end.

(** [df[key] = s]: an existing column is replaced where it stands, a new
    one is appended. *)
Fixpoint setitem (df : DataFrame) (key : string) (s : Series) : DataFrame :=
  match df with
  | [] => [(key, s)]
  | (name, old) :: rest =>
      if String.eqb name key then (name, s) :: rest
      else (name, old) :: setitem rest key s
  end.

Definition column_names (df : DataFrame) : list string := map fst df.

(** [len(df)]: the number of rows. *)
Definition len (df : DataFrame) : nat :=
  match df with
  | [] => 0
  | (_, s) :: _ => Series_.len s
  end.

(** [df.iloc[indices]]: the same rows of every column. *)
Fixpoint iloc (df : DataFrame) (indices : list nat) : Result DataFrame :=
  match df with
  | [] => Ok []
  | (name, s) :: rest =>
      (s' <-? Series_.iloc s indices ;
       rest' <-? iloc rest indices ;
       Ok ((name, s') :: rest'))%result
  end.

(** *** Categoricals: [astype('category')] and [.cat.codes] *)

Section Factorize.
Context {A : Type} (eqb leb : A -> A -> bool).

(** Distinct values, each kept at its first occurrence. *)
Fixpoint unique (l : list A) : list A :=
  match l with
  | [] => []
  | x :: rest => x :: filter (fun y => negb (eqb x y)) (unique rest)
  end.

Fixpoint insert_sorted (x : A) (l : list A) : list A :=
  match l with
  | [] => [x]
  | y :: rest => if leb x y then x :: l else y :: insert_sorted x rest
  end.

Definition sort_values (l : list A) : list A := fold_right insert_sorted [] l.

Fixpoint dropna (l : list (option A)) : list A :=
  match l with
  | [] => []
  | Some x :: rest => x :: dropna rest
  | None :: rest => dropna rest
  end.

(** Position of a value in the categories ([Index.get_loc]). *)
Fixpoint get_loc (cats : list A) (x : A) : option nat :=
  match cats with
  | [] => None
  | c :: rest =>
      if eqb x c then Some 0
      else match get_loc rest x with
           | Some i => Some (S i)
           | None => None
           end
  end.

(** The categories of a column are its distinct non-missing values in
    sorted order. *)
Definition factor_categories (l : list (option A)) : list A :=
  sort_values (unique (dropna l)).

(** The code of an entry is the position of its value in the
    categories, and -1 when the entry is missing. *)
Definition code_of (cats : list A) (v : option A) : Z :=
  match v with
  | None => (-1)%Z
  | Some x =>
      match get_loc cats x with
      | Some i => Z.of_nat i
      | None => (-1)%Z
      end
  end.

Definition factor_codes (l : list (option A)) : list Z :=
  map (code_of (factor_categories l)) l.

End Factorize.

Definition notna (f : spec_float) : option spec_float :=
  if Float64.isnan f then None else Some f.

Definition bool_leb (a b : bool) : bool := implb a b.

Record Categorical : Type := {
  categories : Series;
  codes : list Z
}.

(** [s.astype('category')] *)
Definition astype_category (s : Series) : Categorical :=
  match s with
  | ObjectS v =>
      {| categories := ObjectS (map Some (factor_categories String.eqb String.leb v));
         codes := factor_codes String.eqb String.leb v |}
  | FloatS v =>
      {| categories := FloatS (factor_categories SFeqb SFleb (map notna v));
         codes := factor_codes SFeqb SFleb (map notna v) |}
  | IntS v =>
      {| categories := IntS (factor_categories Z.eqb Z.leb (map Some v));
         codes := factor_codes Z.eqb Z.leb (map Some v) |}
  | BoolS v =>
      {| categories := BoolS (factor_categories Bool.eqb bool_leb (map Some v));
         codes := factor_codes Bool.eqb bool_leb (map Some v) |}
  end.

(** [c.cat.codes] *)
Definition cat_codes (c : Categorical) : Series := IntS (codes c).

(** *** Printing a table

    [print(df)] writes [str(df)], which pandas builds with its display
    options.  In a notebook kernel the defaults are
    [display.max_rows = 60], [display.min_rows = 10] and
    [display.max_columns = 20]: a table of more than 60 rows is cut to
    its first five and last five rows, a table of more than 20 columns
    to its first ten and last ten columns, and a cut table is followed
    by a line with its true dimensions.  The layout of the kept cells as
    characters is not modelled: a rendering is the table of kept cells
    with the two cut marks and the dimensions line. *)

Definition max_rows : nat := 60.
Definition min_rows : nat := 10.
Definition max_columns : nat := 20.

Record Rendering : Type := {
  tr_frame : DataFrame;
  truncated_v : bool;
  truncated_h : bool;
  dimensions : option (nat * nat)
}.

Definition truncate_horizontally (df : DataFrame) : DataFrame :=
  let col_num := max_columns / 2 in
  firstn col_num df ++ lastn col_num df.

Definition truncate_vertically (df : DataFrame) : DataFrame :=
  let row_num := Nat.min min_rows max_rows / 2 in
  map (fun c => (fst c, Series_.head_tail row_num (snd c))) df.

Definition to_string (df : DataFrame) : Rendering :=
  let cut_h := max_columns <? length df in
  let cut_v := max_rows <? len df in
  let frame1 := if cut_h then truncate_horizontally df else df in
  let frame2 := if cut_v then truncate_vertically frame1 else frame1 in
  {| tr_frame := frame2;
     truncated_v := cut_v;
     truncated_h := cut_h;
     dimensions := if cut_h || cut_v then Some (len df, length df) else None |}.

End pandas.
Import pandas.

(** ** The engines behind the library calls

    What the notebook relies on without the models below looking inside:
    - [parse_csv]: the tokenizer and type inference of [pd.read_csv], from
      the text of a file to a table or an exception;
    - [RandomState], [RandomState_seed], [random_interval]: numpy's
      Mersenne Twister; [random_interval st max] draws an integer in
      [0..max], which its type records;
    - [Model], [fit], [predict]: scikit-learn's [LogisticRegression()] with
      its default hyper-parameters.  The default solver (lbfgs) draws no
      random numbers, so fitting is a function of the training data. *)

Class Libraries : Type := {
  parse_csv : string -> Result DataFrame;
  RandomState : Type;
  RandomState_seed : Z -> RandomState;
  random_interval : RandomState -> forall max : nat, {j : nat | j <= max} * RandomState;
  Model : Type;
  fit : DataFrame -> Series -> Result Model;
  predict : Model -> DataFrame -> Result Series
}.

(** ** numpy *)

Module numpy.

Fixpoint set_nth {A} (l : list A) (i : nat) (v : A) : list A :=
  match l, i with
  | [], _ => []
  | _ :: rest, 0 => v :: rest
  | x :: rest, S i' => x :: set_nth rest i' v
  end.

(** [x[i], x[j] = x[j], x[i]] *)
Definition swap {A} (x : list A) (i j : nat) : list A :=
  match nth_error x i, nth_error x j with
  | Some a, Some b => set_nth (set_nth x i b) j a
  | _, _ => x
  end.

Section Shuffle.
Context `{Libraries}.

(** The loop of [RandomState.shuffle]:
    [for i in reversed(range(1, n)): j = random_interval(i); swap]. *)
Fixpoint shuffle_from (i : nat) (st : RandomState) (x : list nat)
    : list nat * RandomState :=
  match i with
  | 0 => (x, st)
  | S i' =>
      let (j, st') := random_interval st i in
      shuffle_from i' st' (swap x i (proj1_sig j))
  end.

Definition shuffle (st : RandomState) (x : list nat) : list nat * RandomState :=
  shuffle_from (length x - 1) st x.

(** [st.permutation(n)]: shuffle [arange(n)]. *)
Definition permutation (st : RandomState) (n : nat) : list nat * RandomState :=
  shuffle st (seq 0 n).

End Shuffle.

  (** [np.mean] of a boolean array: the number of [True] entries over
    the number of entries, in binary64 (0/0 is NaN). *)
Definition mean (score : list bool) : spec_float :=
  Float64.div (Float64.of_int (Z.of_nat (count_occ bool_dec score true)))
              (Float64.of_int (Z.of_nat (length score))).

End numpy.

(** ** The kernel: standard output and numpy's global generator *)

Inductive Output : Type :=
| PrintFrame (text : Rendering)                     (* print(df) *)
| PrintFloat (label : string) (value : spec_float)  (* print(f"label{value}") *)
| PrintLine (text : string).                        (* print("text") *)

Section Kernel.
Context `{Libraries}.

Record Kernel : Type := {
  stdout : list Output;
  np_random : RandomState
}.

(** A statement runs in a kernel, leaves a kernel, and returns a value
    or raises.  What was printed before an exception stays printed. *)
Definition Cell (A : Type) : Type := Kernel -> Kernel * Result A.

Definition ret {A} (a : A) : Cell A := fun k => (k, Ok a).

Definition bind {A B} (c : Cell A) (f : A -> Cell B) : Cell B :=
  fun k =>
    match c k with
    | (k', Ok a) => f a k'
    | (k', Raise e) => (k', Raise e)
    end.

Definition lift {A} (r : Result A) : Cell A := fun k => (k, r).

Definition print (o : Output) : Cell unit :=
  fun k => ({| stdout := stdout k ++ [o]; np_random := np_random k |}, Ok tt).

(** A statement is oblivious when, in every kernel, it appends the same
    output [out], ends in the same way [r] and leaves the global
    generator as it found it. *)
Definition oblivious {A} (c : Cell A) (out : list Output) (r : Result A) : Prop :=
  forall k, c k = ({| stdout := stdout k ++ out; np_random := np_random k |}, r).

Definition obl {A} (c : Cell A) : Prop := exists out r, oblivious c out r.

End Kernel.

Declare Scope cell_scope.
Delimit Scope cell_scope with cell.
Notation "x <- c ;; k" := (bind c (fun x => k))
  (at level 61, c at next level, right associativity) : cell_scope.
Notation "c ;; k" := (bind c (fun _ => k))
  (at level 61, right associativity) : cell_scope.
Notation "' pat <- c ;; k" := (bind c (fun x => match x with pat => k end))
  (at level 61, pat pattern, c at next level, right associativity) : cell_scope.

(** ** scikit-learn *)

Module sklearn.

(** [ceil(0.3 * n_samples)] as scikit-learn computes it, in binary64. *)
Definition binary64_n_test (n_samples : Z) : option Z :=
  Float64.ceil (Float64.mul Float64.lit_0_3 (Float64.of_int n_samples)).

(** Does the binary64 computation give the exact ceiling of [3n/10] at
    each of the [count] sample sizes from [n] on? *)
Fixpoint binary64_agrees_from (count : nat) (n : Z) : bool :=
  match count with
  | 0 => true
  | S count' =>
      match binary64_n_test n with
      | Some n_test => (n_test =? (3 * n + 9) / 10)%Z
      | None => false
      end && binary64_agrees_from count' (n + 1)
  end.

Section ModelSelection.
Context `{Libraries}.

(** [_validate_shuffle_split] for a float [test_size] and
    [train_size=None]: [n_test = ceil(test_size * n_samples)],
    [n_train = n_samples - n_test], and an empty training set is an
    error.

    scikit-learn forms the product in binary64.  Here [test_size] is
    the exact fraction and the product is exact.  For the notebook's
    [0.3] the two give the same [n_test] on every table of fewer than
    10000 rows: lemma [binary64_test_size_agrees] in Part II runs the
    binary64 computation against this definition at each of these
    sizes.  They do not agree at every size: the double nearest to 3/10
    lies below it, and at 3377699720527877 rows the rounded product
    falls on an integer that the exact product exceeds
    ([binary64_test_size_differs]). *)
Definition validate_shuffle_split (n_samples : nat) (test_size : Q)
    : Result (nat * nat) :=
  if negb (Qle_bool test_size 0%Q) && negb (Qle_bool 1%Q test_size)
  then
    let n_test := Qceiling (test_size * inject_Z (Z.of_nat n_samples))%Q in
    let n_train := (Z.of_nat n_samples - n_test)%Z in
    if (Z.of_nat n_samples <? n_train + n_test)%Z
    then Raise (ValueError "The sum of test_size and train_size should be smaller than the number of samples")
    else if (n_train =? 0)%Z
    then Raise (ValueError "the resulting train set will be empty")
    else Ok (Z.to_nat n_train, Z.to_nat n_test)
  else Raise (ValueError "test_size should be a float in the (0, 1) range").

(** [check_random_state(seed).permutation(n)]: an int seed builds a
    fresh generator and leaves the global one alone; [None] draws from
    the global generator and advances it. *)
Definition rng_permutation (random_state : option Z) (n : nat) : Cell (list nat) :=
  fun k =>
    match random_state with
    | Some seed => (k, Ok (fst (numpy.permutation (RandomState_seed seed) n)))
    | None =>
        let (p, st) := numpy.permutation (np_random k) n in
        ({| stdout := stdout k; np_random := st |}, Ok p)
    end.

(** One draw of [ShuffleSplit]: the test rows are the first [n_test]
    entries of the permutation, the training rows the next [n_train]. *)
Definition split_indices (n_train n_test : nat) (perm : list nat)
    : list nat * list nat :=
  (firstn n_train (skipn n_test perm), firstn n_test perm).

(** [train_test_split(X, y, test_size=..., random_state=...)] *)
Definition train_test_split (X : DataFrame) (y : Series)
    (test_size : Q) (random_state : option Z)
    : Cell (DataFrame * DataFrame * Series * Series) :=
  (let n_samples := pandas.len X in
   if negb (n_samples =? Series_.len y)
   then lift (Raise (ValueError "Found input variables with inconsistent numbers of samples"))
   else
     '(n_train, n_test) <- lift (validate_shuffle_split n_samples test_size) ;;
     perm <- rng_permutation random_state n_samples ;;
     let (train, test) := split_indices n_train n_test perm in
     X_train <- lift (pandas.iloc X train) ;;
     X_test <- lift (pandas.iloc X test) ;;
     y_train <- lift (Series_.iloc y train) ;;
     y_test <- lift (Series_.iloc y test) ;;
     ret (X_train, X_test, y_train, y_test))%cell.

End ModelSelection.

(** [y_true == y_pred], entry by entry.  Labels of two different dtypes
    are refused. *)
Definition zip_with {A} (f : A -> A -> bool) (u v : list A) : list bool :=
  map (fun p => f (fst p) (snd p)) (combine u v).

Definition object_eqb (a b : option string) : bool :=
  match a, b with
  | Some s, Some t => String.eqb s t
  | _, _ => false
  end.

Definition eq_elementwise (y_true y_pred : Series) : option (list bool) :=
  match y_true, y_pred with
  | ObjectS u, ObjectS v => Some (zip_with object_eqb u v)
  | FloatS u, FloatS v => Some (zip_with SFeqb u v)
  | IntS u, IntS v => Some (zip_with Z.eqb u v)
  | BoolS u, BoolS v => Some (zip_with Bool.eqb u v)
  | _, _ => None
  end.

(** [accuracy_score(y_true, y_pred)]: the mean of [y_true == y_pred]. *)
Definition accuracy_score (y_true y_pred : Series) : Result spec_float :=
  if negb (Series_.len y_true =? Series_.len y_pred)
  then Raise (ValueError "Found input variables with inconsistent numbers of samples")
  else
    match eq_elementwise y_true y_pred with
    | Some score => Ok (numpy.mean score)
    | None => Raise (ValueError "Classification metrics can't handle a mix of targets")
    end.

End sklearn.

(** ** The notebook *)

(** The files the kernel can open: the text found at a path, if any. *)
Definition FileSystem : Type := string -> option string.

(** The path cell 1 reads, relative to the notebook's directory. *)
Definition csv_path : string := "../data/penguins.csv".

Definition has_power : string :=
  "The sex column has some predictive power for the species column.".
Definition no_power : string :=
  "The sex column does not have predictive power for the species column.".

Section Notebook.
Context `{Libraries}.

(** [pd.read_csv(path)]: a path that cannot be opened raises
    [FileNotFoundError]; otherwise the parser decides. *)
Definition read_csv (fs : FileSystem) (path : string) : Result DataFrame :=
  match fs path with
  | None => Raise (FileNotFoundError path)
  | Some text => parse_csv text
  end.

(** The global names of the kernel once both cells have run. *)
Record Namespace : Type := {
  df : DataFrame;
  X : DataFrame;
  y : Series;
  X_train : DataFrame;
  X_test : DataFrame;
  y_train : Series;
  y_test : Series;
  model : Model;
  y_pred : Series;
  accuracy : spec_float
}.

(** Cell 1:
<<
    df = pd.read_csv('../data/penguins.csv')
    print(df)
>> *)
Definition cell_1 (fs : FileSystem) : Cell DataFrame :=
  (df <- lift (read_csv fs csv_path) ;;
   print (PrintFrame (to_string df)) ;;
   ret df)%cell.

(** The closing [if accuracy > 0.5: ... else: ...]. *)
Definition interpret (accuracy : spec_float) : Cell unit :=
  if Float64.gt accuracy Float64.lit_0_5
  then print (PrintLine has_power)
  else print (PrintLine no_power).

(** Cell 2:
<<
    df['sex'] = df['sex'].astype('category').cat.codes
    df['species'] = df['species'].astype('category').cat.codes
    X = df[['sex']]
    y = df['species']
    X_train, X_test, y_train, y_test =
        train_test_split(X, y, test_size=0.3, random_state=42)
    model = LogisticRegression()
    model.fit(X_train, y_train)
    y_pred = model.predict(X_test)
    accuracy = accuracy_score(y_test, y_pred)
    print(f"Accuracy: {accuracy}")
    if accuracy > 0.5: print(...) else: print(...)
>> *)
Definition cell_2 (df : DataFrame) : Cell Namespace :=
  (sex <- lift (getitem df "sex") ;;
   let df := setitem df "sex" (cat_codes (astype_category sex)) in
   species <- lift (getitem df "species") ;;
   let df := setitem df "species" (cat_codes (astype_category species)) in
   X <- lift (getitem_list df ["sex"%string]) ;;
   y <- lift (getitem df "species") ;;
   '(X_train, X_test, y_train, y_test) <-
      sklearn.train_test_split X y (3 # 10)%Q (Some 42%Z) ;;
   model <- lift (fit X_train y_train) ;;
   y_pred <- lift (predict model X_test) ;;
   accuracy <- lift (sklearn.accuracy_score y_test y_pred) ;;
   print (PrintFloat "Accuracy: " accuracy) ;;
   interpret accuracy ;;
   ret {| df := df; X := X; y := y;
          X_train := X_train; X_test := X_test;
          y_train := y_train; y_test := y_test;
          model := model; y_pred := y_pred; accuracy := accuracy |})%cell.

(** Running the notebook from top to bottom; an exception stops it. *)
Definition notebook (fs : FileSystem) : Cell Namespace :=
  (df <- cell_1 fs ;; cell_2 df)%cell.

(** The order in which a generator freshly seeded with 42 puts the
    positions 0..n-1; the split cuts its two partitions out of it. *)
Definition permutation_42 (n : nat) : list nat :=
  fst (numpy.permutation (RandomState_seed 42%Z) n).

End Notebook.

(** ** Vocabulary of the statements *)

(** [cs] codes the column [s]: one code per entry, -1 exactly at the
    missing entries, and two present entries share a code exactly when
    they hold the same value. *)
Definition codes_column (s : Series) (cs : list Z) : Prop :=
  length cs = Series_.len s /\
  forall i j a b,
    Series_.iat s i = Some a -> Series_.iat s j = Some b ->
    (isna a = true -> nth i cs 0%Z = (-1)%Z) /\
    (isna a = false -> (0 <= nth i cs 0)%Z) /\
    (isna a = false -> isna b = false ->
     (nth i cs 0%Z = nth j cs 0%Z <-> Scalar_eqb a b = true)).

(** The number of positions at which the prediction is the true label. *)
Definition count_correct (y_true y_pred : list Z) : nat :=
  length (filter (fun i => (nth i y_true 0 =? nth i y_pred 0)%Z)
                 (seq 0 (length y_true))).

(** The verdict sentences among some output. *)
Definition is_verdict (o : Output) : bool :=
  match o with
  | PrintLine text => String.eqb text has_power || String.eqb text no_power
  | _ => false
  end.

(** Every column of the table has as many entries as the table has rows. *)
Definition rectangular (df : DataFrame) : Prop :=
  forall name s, In (name, s) df -> Series_.len s = pandas.len df.

(** A rendering shows the whole of [df]. *)
Definition shows_all (text : Rendering) (df : DataFrame) : Prop :=
  tr_frame text = df /\ truncated_v text = false /\ truncated_h text = false.

(** ** Vocabulary of the further statements *)

(** The test size of an [n]-row table: 3n/10 rounded up. *)
Definition n_test_of (n : nat) : nat := (3 * n + 9) / 10.

Section Rows.
Context `{Libraries}.

(** The positions the split of an [n]-row table sends to the test and to
    the training partition. *)
Definition test_rows (n : nat) : list nat :=
  firstn (n_test_of n) (permutation_42 n).

Definition train_rows (n : nat) : list nat :=
  firstn (n - n_test_of n) (skipn (n_test_of n) (permutation_42 n)).

(** The kernel once cell 1 has printed the table. *)
Definition table_printed (k : Kernel) (df0 : DataFrame) : Kernel :=
  {| stdout := stdout k ++ [PrintFrame (to_string df0)];
     np_random := np_random k |}.

End Rows.

(** The codes of the rows at some positions, in the order of the
    positions. *)
Definition select (code : list Z) (rows : list nat) : list Z :=
  map (fun i => nth i code 0%Z) rows.

(** The one-column feature table built from sex codes. *)
Definition feature_table (code : list Z) : DataFrame :=
  [("sex"%string, IntS code)].

(** The codes of a column with [k] categories: every code lies between
    -1 and [k - 1], and every number from 0 to [k - 1] is the code of
    some row. *)
Definition dense_codes (k : nat) (cs : list Z) : Prop :=
  (forall c, In c cs -> (-1 <= c < Z.of_nat k)%Z) /\
  (forall j, j < k -> In (Z.of_nat j) cs).

(** The number of categories of a column. *)
Definition n_categories (s : Series) : nat :=
  Series_.len (categories (astype_category s)).

(** The codes of a text column follow the order of its values: of two
    rows holding text, one has the smaller code exactly when its text
    comes first in the lexicographic order of the characters. *)
Definition ordered_codes (v : list (option string)) (cs : list Z) : Prop :=
  forall i j s t,
    nth_error v i = Some (Some s) -> nth_error v j = Some (Some t) ->
    ((nth i cs 0 < nth j cs 0)%Z <-> String.ltb s t = true).

(** Two runs end alike: with the same exception, or with the same
    features, targets, partitions, model, predictions and accuracy. *)
Definition same_outcome `{Libraries} (r1 r2 : Result Namespace) : Prop :=
  match r1, r2 with
  | Ok ns1, Ok ns2 =>
      X ns1 = X ns2 /\ y ns1 = y ns2 /\
      X_train ns1 = X_train ns2 /\ X_test ns1 = X_test ns2 /\
      y_train ns1 = y_train ns2 /\ y_test ns1 = y_test ns2 /\
      model ns1 = model ns2 /\ y_pred ns1 = y_pred ns2 /\
      accuracy ns1 = accuracy ns2
  | Raise e1, Raise e2 => e1 = e2
  | _, _ => False
  end.

(** ** A small implementation of the interface

    Used to run the notebook on concrete files: a comma-separated reader
    that keeps every column as text, a linear congruential generator, and
    a classifier that always answers the label of its first training
    row and, like scikit-learn's, refuses training labels of one class. *)

Module Fixture.

Definition newline : ascii := "010"%char.
Definition comma : ascii := ","%char.

(** [s.split(sep)] *)
Fixpoint split_on (sep : ascii) (s : string) : list string :=
  match s with
  | EmptyString => [EmptyString]
  | String c rest =>
      if Ascii.eqb c sep then EmptyString :: split_on sep rest
      else match split_on sep rest with
           | [] => [String c EmptyString]
           | field :: fields => String c field :: fields
           end
  end.

Definition field_value (f : option string) : option string :=
  match f with
  | Some EmptyString | None => None
  | Some s => Some s
  end.

Definition column_of (rows : list (list string)) (j : nat) : Series :=
  ObjectS (map (fun row => field_value (nth_error row j)) rows).

Definition parse_text (text : string) : Result DataFrame :=
  let lines := filter (fun l => negb (String.eqb l "")) (split_on newline text) in
  match map (split_on comma) lines with
  | [] => Raise EmptyDataError
  | header :: rows =>
      if forallb (fun row => length row <=? length header) rows
      then Ok (map (fun j => (nth j header ""%string, column_of rows j))
                   (seq 0 (length header)))
      else Raise (ParserError "Error tokenizing data")
  end.

Definition lcg_draw (st max : nat) : {j : nat | j <= max} * nat :=
  (exist _ (st mod S max)
     (proj1 (Nat.lt_succ_r _ _) (Nat.mod_upper_bound st (S max) (Nat.neq_succ_0 max))),
   (st * 5 + 3) mod 257).

Definition first_label_fit (X : DataFrame) (y : Series) : Result Z :=
  match y with
  | IntS (label :: rest) =>
      if forallb (Z.eqb label) rest
      then Raise (ValueError "This solver needs samples of at least 2 classes in the data")
      else Ok label
  | _ => Raise (ValueError "Unknown label type")
  end.

Definition constant_predict (label : Z) (X : DataFrame) : Result Series :=
  Ok (IntS (repeat label (pandas.len X))).

Definition libraries : Libraries := {|
  parse_csv := parse_text;
  RandomState := nat;
  RandomState_seed := Z.to_nat;
  random_interval := lcg_draw;
  Model := Z;
  fit := first_label_fit;
  predict := constant_predict
|}.

Definition fresh_kernel : Kernel (H := libraries) :=
  @Build_Kernel libraries [] 0.

(** A file system holding one file at the notebook's path. *)
Definition one_file (text : string) : FileSystem :=
  fun path => if String.eqb path csv_path then Some text else None.

Definition no_file : FileSystem := fun _ => None.

(** The same file among others, and a kernel that has already printed
    and drawn random numbers. *)
Definition crowded (text : string) : FileSystem :=
  fun path => if String.eqb path csv_path then Some text else Some "x,y"%string.

Definition used_kernel : Kernel (H := libraries) :=
  @Build_Kernel libraries [PrintLine "earlier output"] 7.

Definition line (s : string) : string := s ++ String newline EmptyString.

Definition header : string :=
  line "species,island,culmen_length_mm,culmen_depth_mm,flipper_length_mm,body_mass_g,sex".

(** Six penguins; the fourth has no measurements and no sex. *)
Definition six_penguins : string :=
  header
  ++ line "Adelie,Torgersen,39.1,18.7,181,3750,MALE"
  ++ line "Adelie,Torgersen,39.5,17.4,186,3800,FEMALE"
  ++ line "Chinstrap,Dream,46.5,17.9,192,3500,FEMALE"
  ++ line "Adelie,Torgersen,,,,,"
  ++ line "Gentoo,Biscoe,50.4,15.7,222,5750,MALE"
  ++ line "Gentoo,Biscoe,45.2,14.8,212,5200,FEMALE".

(** Four penguins of four species. *)
Definition four_penguins : string :=
  header
  ++ line "Adelie,Torgersen,39.1,18.7,181,3750,MALE"
  ++ line "Chinstrap,Dream,46.5,17.9,192,3500,FEMALE"
  ++ line "Gentoo,Biscoe,45.2,14.8,212,5200,FEMALE"
  ++ line "Macaroni,Bird,70.1,20.3,290,5300,MALE".

(** A file as long as the notebook's: 344 rows. *)
Definition many_penguins : string :=
  header
  ++ String.concat "" (repeat (line "Adelie,Torgersen,39.1,18.7,181,3750,MALE") 172)
  ++ String.concat "" (repeat (line "Gentoo,Biscoe,45.2,14.8,212,5200,FEMALE") 172).

(** A file whose second row has one field too many. *)
Definition malformed : string :=
  header ++ line "Adelie,Torgersen,39.1,18.7,181,3750,MALE,extra".

(** Files that lack a column. *)
Definition without_sex : string :=
  line "species,island"
  ++ line "Adelie,Torgersen"
  ++ line "Gentoo,Biscoe".

Definition without_species : string :=
  line "island,sex"
  ++ line "Torgersen,MALE"
  ++ line "Biscoe,FEMALE".

(** One penguin. *)
Definition one_penguin : string :=
  header ++ line "Adelie,Torgersen,39.1,18.7,181,3750,MALE".

(** Two penguins of one species: any one of them alone, and so the
    training row, shows a single class. *)
Definition one_species : string :=
  header
  ++ line "Adelie,Torgersen,39.1,18.7,181,3750,MALE"
  ++ line "Adelie,Dream,37.2,18.1,178,3900,FEMALE".

(** The six penguins again, species and sex as before, islands and
    measurements changed. *)
Definition six_penguins_moved : string :=
  header
  ++ line "Adelie,Dream,40.0,18.0,180,3700,MALE"
  ++ line "Adelie,Dream,38.1,17.0,185,3600,FEMALE"
  ++ line "Chinstrap,Biscoe,47.0,18.2,195,3550,FEMALE"
  ++ line "Adelie,Biscoe,41.3,19.0,190,4000,"
  ++ line "Gentoo,Dream,49.9,16.1,213,5400,MALE"
  ++ line "Gentoo,Torgersen,46.8,14.3,215,4850,FEMALE".

End Fixture.



(* ================================================================== *)
(** * Part II: lemmas and theorems                                     *)
(* ================================================================== *)

Unset Implicit Arguments.

(** ** Positional selection *)

Lemma take_Some_iff {A} (d : A) (l : list A) (indices : list nat) (l' : list A) :
  take l indices = Some l' <->
  Forall (fun i => i < length l) indices /\ l' = map (fun i => nth i l d) indices.
Proof.
  revert l'; induction indices as [|i rest IH]; intros l'; simpl.
  - split; [intros [= <-]; auto | intros [_ ->]; reflexivity].
  - destruct (nth_error l i) as [x|] eqn:Hx.
    + apply (nth_error_nth _ _ d) in Hx as Hnth.
      assert (Hi : i < length l) by (apply nth_error_Some; congruence).
      destruct (take l rest) as [xs|].
      * destruct (proj1 (IH xs) eq_refl) as [Hall ->].
        split.
        -- intros [= <-]; split; [constructor; auto | now rewrite Hnth].
        -- intros [_ ->]; now rewrite Hnth.
      * split; [discriminate|].
        intros [Hall _]; inversion Hall; subst.
        assert (Hnone : None = Some (map (fun i => nth i l d) rest))
          by (apply IH; auto).
        discriminate.
    + split; [discriminate|].
      intros [Hall _]; inversion Hall; subst.
      apply nth_error_None in Hx; lia.
Qed.

Lemma take_length {A} (l : list A) indices l' :
  take l indices = Some l' -> length l' = length indices.
Proof.
  revert l'; induction indices as [|i rest IH]; intros l'; simpl.
  - now intros [= <-].
  - destruct (nth_error l i); [|discriminate].
    destruct (take l rest); [|discriminate].
    intros [= <-]; simpl; f_equal; auto.
Qed.

Lemma Series_iloc_len s indices s' :
  Series_.iloc s indices = Ok s' -> Series_.len s' = length indices.
Proof.
  destruct s; simpl; unfold Series_.lift_take;
    destruct (take values indices) eqn:E; intros [= <-]; simpl;
    eauto using take_length.
Qed.

Lemma Series_iloc_IntS v indices s' :
  Series_.iloc (IntS v) indices = Ok s' ->
  Forall (fun i => i < length v) indices /\
  s' = IntS (map (fun i => nth i v 0%Z) indices).
Proof.
  simpl; unfold Series_.lift_take.
  destruct (take v indices) as [v'|] eqn:E; [|discriminate].
  intros [= <-].
  apply (take_Some_iff 0%Z) in E as [Hall ->]; auto.
Qed.

Lemma iloc_single name v indices df' :
  pandas.iloc [(name, IntS v)] indices = Ok df' ->
  Forall (fun i => i < length v) indices /\
  df' = [(name, IntS (map (fun i => nth i v 0%Z) indices))].
Proof.
  unfold pandas.iloc, try_bind.
  destruct (Series_.iloc (IntS v) indices) as [s'|] eqn:E; [|discriminate].
  intros [= <-].
  apply Series_iloc_IntS in E as [Hall ->]; auto.
Qed.

(** ** Reading and writing columns *)

Lemma lookup_setitem_same df key s :
  lookup (setitem df key s) key = Some s.
Proof.
  induction df as [|[name old] rest IH]; simpl.
  - now rewrite String.eqb_refl.
  - destruct (String.eqb name key) eqn:E; simpl; now rewrite E.
Qed.

Lemma lookup_setitem_other df key s key' :
  key' <> key -> lookup (setitem df key s) key' = lookup df key'.
Proof.
  intros Hne; induction df as [|[name old] rest IH]; simpl.
  - destruct (String.eqb_spec key key'); congruence.
  - destruct (String.eqb_spec name key) as [->|Hnk]; simpl.
    + destruct (String.eqb_spec key key'); congruence.
    + now rewrite IH.
Qed.

Lemma column_names_setitem df key s :
  lookup df key <> None -> column_names (setitem df key s) = column_names df.
Proof.
  unfold column_names; induction df as [|[name old] rest IH]; simpl.
  - congruence.
  - destruct (String.eqb name key) eqn:E; simpl; intros Hl.
    + reflexivity.
    + f_equal; auto.
Qed.

Lemma getitem_Ok df key s : getitem df key = Ok s <-> lookup df key = Some s.
Proof.
  unfold getitem; destruct (lookup df key); split; congruence.
Qed.

Lemma getitem_list_single df key X :
  getitem_list df [key] = Ok X <-> exists s, lookup df key = Some s /\ X = [(key, s)].
Proof.
  simpl; unfold getitem, try_bind; destruct (lookup df key) as [s|].
  - split; [intros [= <-]; eauto | intros (s' & [= <-] & ->); reflexivity].
  - split; [discriminate | intros (s' & Hs & _); discriminate].
Qed.

(** ** Category codes *)

Section FactorizeFacts.
Context {A : Type} (eqb leb : A -> A -> bool).
Hypothesis eqb_sym : forall x y, eqb x y = eqb y x.
Hypothesis eqb_trans :
  forall x y z, eqb x y = true -> eqb y z = true -> eqb x z = true.

Lemma eqb_congr x y : eqb x y = true -> forall c, eqb x c = eqb y c.
Proof.
  intros Hxy c.
  destruct (eqb y c) eqn:Eyc.
  - eapply eqb_trans; eauto.
  - destruct (eqb x c) eqn:Exc; [|reflexivity].
    rewrite <- Eyc; symmetry.
    apply eqb_trans with x; [now rewrite eqb_sym | assumption].
Qed.

Lemma get_loc_congr cats x y :
  eqb x y = true -> get_loc eqb cats x = get_loc eqb cats y.
Proof.
  intros Hxy; induction cats as [|c rest IH]; simpl; [reflexivity|].
  now rewrite (eqb_congr _ _ Hxy c), IH.
Qed.

Lemma get_loc_nth cats x i :
  get_loc eqb cats x = Some i ->
  exists c, nth_error cats i = Some c /\ eqb x c = true.
Proof.
  revert i; induction cats as [|c rest IH]; intros i; simpl; [discriminate|].
  destruct (eqb x c) eqn:E.
  - intros [= <-]; exists c; auto.
  - destruct (get_loc eqb rest x) as [i'|]; [|discriminate].
    intros [= <-]; simpl; auto.
Qed.

Lemma get_loc_found cats x c :
  In c cats -> eqb x c = true -> exists i, get_loc eqb cats x = Some i.
Proof.
  induction cats as [|c' rest IH]; simpl; [tauto|].
  intros [->|Hin] Hxc.
  - rewrite Hxc; eauto.
  - destruct (eqb x c'); [eauto|].
    destruct (IH Hin Hxc) as [i ->]; eauto.
Qed.

Lemma unique_representative l x :
  In x l -> eqb x x = true ->
  exists c, In c (unique eqb l) /\ eqb c x = true.
Proof.
  intros Hin Hxx; induction l as [|a rest IH]; simpl in *; [tauto|].
  destruct Hin as [->|Hin].
  - exists x; auto.
  - destruct (IH Hin) as (c & Hc & Hcx).
    destruct (eqb a c) eqn:Eac.
    + exists a; split; [auto | eapply eqb_trans; eauto].
    + exists c; split; [right; apply filter_In; now rewrite Eac | assumption].
Qed.

Lemma insert_sorted_perm x l : Permutation (insert_sorted leb x l) (x :: l).
Proof.
  induction l as [|y rest IH]; simpl; [reflexivity|].
  destruct (leb x y); [reflexivity|].
  rewrite IH; apply perm_swap.
Qed.

Lemma sort_values_perm l : Permutation (sort_values leb l) l.
Proof.
  induction l as [|x rest IH]; simpl; [reflexivity|].
  rewrite insert_sorted_perm; now constructor.
Qed.

Lemma in_dropna (l : list (option A)) x : In (Some x) l <-> In x (dropna l).
Proof.
  induction l as [|[a|] rest IH]; simpl; [tauto | |].
  - rewrite <- IH; split; intros [E|?]; auto; left; congruence.
  - rewrite <- IH; split; [intros [E|?]; [discriminate | auto] | auto].
Qed.

(** A present value has a code, the code is not negative, and two present
    values have the same code exactly when they are equal. *)
Lemma code_of_present l x y :
  In (Some x) l -> In (Some y) l -> eqb x x = true -> eqb y y = true ->
  let cats := factor_categories eqb leb l in
  (0 <= code_of eqb cats (Some x))%Z /\
  (code_of eqb cats (Some x) = code_of eqb cats (Some y) <-> eqb x y = true).
Proof.
  intros Hx Hy Hxx Hyy cats.
  assert (Hloc : forall z, In (Some z) l -> eqb z z = true ->
                           exists i, get_loc eqb cats z = Some i).
  { intros z Hz Hzz.
    apply in_dropna in Hz.
    destruct (unique_representative _ _ Hz Hzz) as (c & Hc & Hcz).
    apply (get_loc_found cats z c).
    - unfold cats, factor_categories.
      eapply Permutation_in; [symmetry; apply sort_values_perm | exact Hc].
    - now rewrite eqb_sym. }
  destruct (Hloc x Hx Hxx) as [i Hi], (Hloc y Hy Hyy) as [j Hj].
  simpl; rewrite Hi, Hj; split; [lia|].
  split.
  - intros Hij; apply Nat2Z.inj in Hij; subst j.
    destruct (get_loc_nth _ _ _ Hi) as (c & Hc & Hxc).
    destruct (get_loc_nth _ _ _ Hj) as (c' & Hc' & Hyc).
    assert (c' = c) by congruence; subst c'.
    apply eqb_trans with c; [assumption | now rewrite eqb_sym].
  - intros Hxy; rewrite (get_loc_congr cats _ _ Hxy) in Hi; congruence.
Qed.

End FactorizeFacts.

(** Equality of floats: NaN equals nothing, the two zeros are equal. *)
Lemma SFeqb_iff f g :
  SFeqb f g = true <->
  match f, g with
  | S754_zero _, S754_zero _ => True
  | S754_infinity s, S754_infinity t => s = t
  | S754_finite s m e, S754_finite t n d => s = t /\ m = n /\ e = d
  | _, _ => False
  end.
Proof.
  unfold SFeqb, SFcompare.
  destruct f as [[]|[]| |[] m e], g as [[]|[]| |[] n d];
    try solve [split; [discriminate | intuition discriminate]];
    try solve [split; auto].
  all: change (Pos.compare_cont Eq m n) with (Pos.compare m n);
    destruct (Z.compare_spec e d) as [->|Hlt|Hgt];
    try solve [split; [discriminate | intros (_ & _ & ?); lia]];
    destruct (Pos.compare_spec m n) as [->|Hlt|Hgt]; simpl;
    try solve [split; [discriminate | intros (_ & ? & _); lia]];
    tauto.
Qed.

Lemma SFeqb_sym f g : SFeqb f g = SFeqb g f.
Proof.
  destruct (SFeqb f g) eqn:E1, (SFeqb g f) eqn:E2; auto;
    [apply SFeqb_iff in E1 | apply SFeqb_iff in E2];
    [rewrite <- E2 | rewrite <- E1]; [symmetry|]; apply SFeqb_iff;
    destruct f, g; intuition congruence.
Qed.

Lemma SFeqb_trans f g h :
  SFeqb f g = true -> SFeqb g h = true -> SFeqb f h = true.
Proof.
  rewrite !SFeqb_iff; destruct f, g, h; intuition congruence.
Qed.

Lemma SFeqb_refl f : Float64.isnan f = false -> SFeqb f f = true.
Proof. intros Hf; apply SFeqb_iff; destruct f; simpl in *; auto; discriminate. Qed.

Section FactorCodes.
Context {A : Type} (eqb leb : A -> A -> bool).
Hypothesis eqb_sym : forall x y, eqb x y = eqb y x.
Hypothesis eqb_trans :
  forall x y z, eqb x y = true -> eqb y z = true -> eqb x z = true.

Lemma factor_codes_length l : length (factor_codes eqb leb l) = length l.
Proof. unfold factor_codes; apply length_map. Qed.

Lemma factor_codes_nth l i v :
  nth_error l i = Some v ->
  nth i (factor_codes eqb leb l) 0%Z = code_of eqb (factor_categories eqb leb l) v.
Proof.
  intros Hi; apply nth_error_nth; unfold factor_codes.
  now apply map_nth_error.
Qed.

Lemma factor_codes_spec l :
  (forall x, In (Some x) l -> eqb x x = true) ->
  forall i j vi vj,
    nth_error l i = Some vi -> nth_error l j = Some vj ->
    let ci := nth i (factor_codes eqb leb l) 0%Z in
    let cj := nth j (factor_codes eqb leb l) 0%Z in
    match vi, vj with
    | None, _ => ci = (-1)%Z
    | Some x, None => (0 <= ci)%Z
    | Some x, Some y => (0 <= ci)%Z /\ (ci = cj <-> eqb x y = true)
    end.
Proof.
  intros Hrefl i j vi vj Hi Hj ci cj; subst ci cj.
  rewrite (factor_codes_nth _ _ _ Hi), (factor_codes_nth _ _ _ Hj).
  apply nth_error_In in Hi as Hini; apply nth_error_In in Hj as Hinj.
  destruct vi as [x|]; [|reflexivity].
  destruct vj as [y|].
  - apply code_of_present; auto.
  - apply (code_of_present eqb leb eqb_sym eqb_trans l x x); auto.
Qed.

End FactorCodes.

Lemma nth_error_map_inv {A B} (f : A -> B) l i b :
  nth_error (map f l) i = Some b -> exists a, nth_error l i = Some a /\ b = f a.
Proof.
  rewrite nth_error_map; destruct (nth_error l i) as [a|]; simpl; [|discriminate].
  intros [= <-]; eauto.
Qed.

Lemma option_map_Some {A B} (f : A -> B) o b :
  option_map f o = Some b -> exists a, o = Some a /\ b = f a.
Proof. destruct o as [a|]; simpl; [intros [= <-]; eauto | discriminate]. Qed.

(** [astype('category').cat.codes] codes the column it is applied to. *)
Lemma astype_category_codes s : codes_column s (codes (astype_category s)).
Proof.
  destruct s as [v|v|v|v]; simpl; split;
    try (rewrite factor_codes_length, ?length_map; reflexivity).
  - (* text *)
    intros i j a b Ha Hb.
    apply option_map_Some in Ha as (oa & Hi & ->).
    apply option_map_Some in Hb as (ob & Hj & ->).
    assert (Hspec := factor_codes_spec String.eqb String.leb String.eqb_sym
      (fun x y z Hxy Hyz => proj2 (String.eqb_eq x z)
         (eq_trans (proj1 (String.eqb_eq x y) Hxy) (proj1 (String.eqb_eq y z) Hyz)))
      v (fun x _ => String.eqb_refl x) i j oa ob Hi Hj).
    destruct oa as [x|], ob as [y|]; simpl in *;
      repeat split; try discriminate; intuition.
  - (* floats *)
    intros i j a b Ha Hb.
    apply option_map_Some in Ha as (f & Hi & ->).
    apply option_map_Some in Hb as (g & Hj & ->).
    assert (Hrefl : forall x, In (Some x) (map notna v) -> SFeqb x x = true).
    { intros x Hx; apply in_map_iff in Hx as (f0 & Hf0 & _).
      unfold notna in Hf0; destruct (Float64.isnan f0) eqn:E; [discriminate|].
      injection Hf0 as <-; now apply SFeqb_refl. }
    assert (Hspec := factor_codes_spec SFeqb SFleb SFeqb_sym SFeqb_trans
      (map notna v) Hrefl i j (notna f) (notna g)
      (map_nth_error notna i v Hi) (map_nth_error notna j v Hj)).
    unfold notna in Hspec; simpl.
    destruct (Float64.isnan f), (Float64.isnan g); simpl in *;
      repeat split; try discriminate; intuition.
  - (* integers *)
    intros i j a b Ha Hb.
    apply option_map_Some in Ha as (x & Hi & ->).
    apply option_map_Some in Hb as (y & Hj & ->).
    assert (Hspec := factor_codes_spec Z.eqb Z.leb Z.eqb_sym
      (fun x y z Hxy Hyz => proj2 (Z.eqb_eq x z)
         (eq_trans (proj1 (Z.eqb_eq x y) Hxy) (proj1 (Z.eqb_eq y z) Hyz)))
      (map Some v) (fun x _ => Z.eqb_refl x) i j (Some x) (Some y)
      (map_nth_error Some i v Hi) (map_nth_error Some j v Hj)).
    simpl in *; repeat split; try discriminate; intuition.
  - (* booleans *)
    intros i j a b Ha Hb.
    apply option_map_Some in Ha as (x & Hi & ->).
    apply option_map_Some in Hb as (y & Hj & ->).
    assert (Hspec := factor_codes_spec Bool.eqb bool_leb
      (fun x y => match x, y with true, true | false, false => eq_refl
                                | _, _ => eq_refl end)
      (fun x y z Hxy Hyz => proj2 (Bool.eqb_true_iff x z)
         (eq_trans (proj1 (Bool.eqb_true_iff x y) Hxy)
                   (proj1 (Bool.eqb_true_iff y z) Hyz)))
      (map Some v) (fun x _ => Bool.eqb_reflx x) i j (Some x) (Some y)
      (map_nth_error Some i v Hi) (map_nth_error Some j v Hj)).
    simpl in *; repeat split; try discriminate; intuition.
Qed.

(** ** The shuffle is a permutation *)

Lemma set_nth_length {A} (l : list A) i v : length (numpy.set_nth l i v) = length l.
Proof.
  revert i; induction l as [|x rest IH]; intros [|i]; simpl; auto.
Qed.

Lemma set_nth_app {A} (l1 l2 : list A) k v :
  numpy.set_nth (l1 ++ l2) (length l1 + k) v = l1 ++ numpy.set_nth l2 k v.
Proof. induction l1 as [|y rest IH]; simpl; [reflexivity | now rewrite IH]. Qed.

Lemma swap_length {A} (x : list A) i j : length (numpy.swap x i j) = length x.
Proof.
  unfold numpy.swap.
  destruct (nth_error x i), (nth_error x j); auto.
  now rewrite !set_nth_length.
Qed.

Lemma swap_same {A} (x : list A) i : numpy.swap x i i = x.
Proof.
  unfold numpy.swap; destruct (nth_error x i) as [a|] eqn:E; [|reflexivity].
  destruct (nth_error_split _ _ E) as (l1 & l2 & -> & <-).
  rewrite <- (Nat.add_0_r (length l1)).
  rewrite set_nth_app; simpl; rewrite set_nth_app; reflexivity.
Qed.

Lemma swap_perm {A} (x : list A) i j :
  j <= i -> i < length x -> Permutation (numpy.swap x i j) x.
Proof.
  intros Hji Hi.
  destruct (Nat.eq_dec j i) as [->|Hne]; [now rewrite swap_same|].
  unfold numpy.swap.
  destruct (nth_error x i) as [a|] eqn:Ea; [|reflexivity].
  destruct (nth_error x j) as [b|] eqn:Eb; [|reflexivity].
  destruct (nth_error_split _ _ Eb) as (l1 & r & -> & Hl1).
  rewrite nth_error_app2 in Ea by lia.
  replace (i - length l1) with (S (i - j - 1)) in Ea by lia.
  simpl in Ea.
  destruct (nth_error_split _ _ Ea) as (l2 & l3 & -> & Hl2).
  replace i with (length l1 + S (length l2 + 0)) by lia.
  rewrite set_nth_app; simpl; rewrite set_nth_app; simpl.
  replace j with (length l1 + 0) by lia.
  rewrite set_nth_app; simpl.
  apply Permutation_app_head.
  rewrite <- !Permutation_middle.
  apply perm_swap.
Qed.

Section ShuffleFacts.
Context `{Libraries}.

Lemma shuffle_from_perm i st x :
  i < length x \/ i = 0 ->
  Permutation (fst (numpy.shuffle_from i st x)) x.
Proof.
  revert st x; induction i as [|i IH]; intros st x Hi; simpl; [reflexivity|].
  destruct (random_interval st (S i)) as [[j Hj] st'] eqn:E; simpl.
  assert (Hlen : S i < length x) by lia.
  rewrite IH by (rewrite swap_length; lia).
  now apply swap_perm.
Qed.

Lemma permutation_perm st n :
  Permutation (fst (numpy.permutation st n)) (seq 0 n).
Proof.
  unfold numpy.permutation, numpy.shuffle.
  apply shuffle_from_perm; rewrite length_seq; lia.
Qed.

Lemma permutation_42_perm n : Permutation (permutation_42 n) (seq 0 n).
Proof. apply permutation_perm. Qed.

Lemma permutation_42_length n : length (permutation_42 n) = n.
Proof.
  rewrite (Permutation_length (permutation_42_perm n)); apply length_seq.
Qed.

(** The two index sets of a split partition the positions. *)
Lemma split_indices_partition n n_train n_test train test :
  n_train + n_test = n ->
  sklearn.split_indices n_train n_test (permutation_42 n) = (train, test) ->
  Permutation (train ++ test) (seq 0 n) /\
  length train = n_train /\ length test = n_test.
Proof.
  intros Hsum [= <- <-].
  assert (Hlen := permutation_42_length n).
  assert (Hskip : length (skipn n_test (permutation_42 n)) = n_train)
    by (rewrite length_skipn; lia).
  rewrite firstn_all2 by lia.
  repeat split.
  - rewrite Permutation_app_comm, firstn_skipn; apply permutation_42_perm.
  - exact Hskip.
  - rewrite length_firstn; lia.
Qed.

End ShuffleFacts.

(** ** The sizes of the split *)

Lemma ceiling_three_tenths z :
  Qceiling ((3 # 10) * inject_Z z) = ((3 * z + 9) / 10)%Z.
Proof.
  change (Qceiling ((3 # 10) * inject_Z z)) with (- (- (3 * z) / 10))%Z.
  assert (H1 := Z.div_mod (- (3 * z)) 10 ltac:(lia)).
  assert (H2 := Z.mod_pos_bound (- (3 * z)) 10 ltac:(lia)).
  assert (H3 := Z.div_mod (3 * z + 9) 10 ltac:(lia)).
  assert (H4 := Z.mod_pos_bound (3 * z + 9) 10 ltac:(lia)).
  lia.
Qed.

Lemma validate_shuffle_split_0_3 n :
  sklearn.validate_shuffle_split n (3 # 10) =
  if n <? 2 then Raise (ValueError "the resulting train set will be empty")
  else Ok (n - (3 * n + 9) / 10, (3 * n + 9) / 10).
Proof.
  unfold sklearn.validate_shuffle_split.
  change (negb (Qle_bool (3 # 10) 0) && negb (Qle_bool 1 (3 # 10))) with true.
  cbv iota.
  rewrite ceiling_three_tenths.
  set (t := ((3 * Z.of_nat n + 9) / 10)%Z).
  assert (Ht : t = Z.of_nat ((3 * n + 9) / 10)).
  { unfold t; rewrite Nat2Z.inj_div; f_equal; lia. }
  assert (H1 := Nat.div_mod (3 * n + 9) 10 ltac:(lia)).
  assert (H2 := Nat.mod_upper_bound (3 * n + 9) 10 ltac:(lia)).
  replace (Z.of_nat n <? Z.of_nat n - t + t)%Z with false
    by (symmetry; apply Z.ltb_ge; lia).
  destruct (Nat.ltb_spec n 2) as [Hn|Hn].
  - replace (Z.of_nat n - t =? 0)%Z with true; [reflexivity|].
    symmetry; apply Z.eqb_eq.
    assert (n = 0 \/ n = 1) as [-> | ->] by lia; subst t; reflexivity.
  - replace (Z.of_nat n - t =? 0)%Z with false
      by (symmetry; apply Z.eqb_neq; lia).
    rewrite Ht, Nat2Z.id; f_equal; f_equal; lia.
Qed.

(** The test partition is 30% of the rows rounded up to a whole row, the
    training partition the rest. *)
Lemma split_sizes n n_train n_test :
  sklearn.validate_shuffle_split n (3 # 10) = Ok (n_train, n_test) ->
  2 <= n /\ n_test = (3 * n + 9) / 10 /\ n_train + n_test = n /\
  0 < n_train /\ 0 < n_test /\
  3 * n <= 10 * n_test < 3 * n + 10.
Proof.
  rewrite validate_shuffle_split_0_3.
  destruct (Nat.ltb_spec n 2) as [Hn|Hn]; [discriminate|].
  intros Heq.
  assert (E1 : n - (3 * n + 9) / 10 = n_train) by congruence.
  assert (E2 : (3 * n + 9) / 10 = n_test) by congruence.
  assert (H1 := Nat.div_mod (3 * n + 9) 10 ltac:(lia)).
  assert (H2 := Nat.mod_upper_bound (3 * n + 9) 10 ltac:(lia)).
  lia.
Qed.

(** ** What a completed run has done *)

Section Runs.
Context `{Libraries}.

Lemma bind_Ok {A B} (c : Cell A) (f : A -> Cell B) k k' b :
  bind c f k = (k', Ok b) ->
  exists a k1, c k = (k1, Ok a) /\ f a k1 = (k', Ok b).
Proof.
  unfold bind; destruct (c k) as [k1 [a|e]]; [eauto | discriminate].
Qed.

Lemma lift_Ok {A} (r : Result A) k k' a :
  lift r k = (k', Ok a) -> r = Ok a /\ k' = k.
Proof. unfold lift; intros [= -> ->]; auto. Qed.

Lemma print_Ok o k k' u :
  print o k = (k', Ok u) ->
  k' = {| stdout := stdout k ++ [o]; np_random := np_random k |}.
Proof. unfold print; now intros [= <-]. Qed.

Tactic Notation "run_step" hyp(H) "as" simple_intropattern(a) ident(Hc) :=
  let k1 := fresh "k" in
  apply bind_Ok in H as (a & k1 & Hc & H);
  first [ apply lift_Ok in Hc as [Hc ->]
        | apply print_Ok in Hc; subst k1
        | idtac ].

Lemma train_test_split_Ok X y k k' X_train X_test y_train y_test :
  sklearn.train_test_split X y (3 # 10) (Some 42%Z) k
    = (k', Ok (X_train, X_test, y_train, y_test)) ->
  exists n_train n_test,
    let n := pandas.len X in
    let train := firstn n_train (skipn n_test (permutation_42 n)) in
    let test := firstn n_test (permutation_42 n) in
    Series_.len y = n /\
    sklearn.validate_shuffle_split n (3 # 10) = Ok (n_train, n_test) /\
    pandas.iloc X train = Ok X_train /\
    pandas.iloc X test = Ok X_test /\
    Series_.iloc y train = Ok y_train /\
    Series_.iloc y test = Ok y_test /\
    k' = k.
Proof.
  unfold sklearn.train_test_split; intros Hrun.
  destruct (Nat.eqb_spec (pandas.len X) (Series_.len y)) as [Hlen|Hlen];
    simpl negb in Hrun; cbv iota in Hrun; [|discriminate].
  run_step Hrun as [n_train n_test] Hval.
  run_step Hrun as perm Hperm.
  injection Hperm as <-.
  unfold sklearn.split_indices in Hrun.
  run_step Hrun as X_tr HXtr.
  run_step Hrun as X_te HXte.
  run_step Hrun as y_tr Hytr.
  run_step Hrun as y_te Hyte.
  unfold ret in Hrun; injection Hrun as <- <- <- <- <-.
  exists n_train, n_test; simpl; auto 10.
Qed.

Lemma notebook_completed fs k k' ns :
  notebook fs k = (k', Ok ns) ->
  exists df0 sex0 species0 n_train n_test,
    let n := Series_.len sex0 in
    let sex_codes := codes (astype_category sex0) in
    let species_codes := codes (astype_category species0) in
    let train := firstn n_train (skipn n_test (permutation_42 n)) in
    let test := firstn n_test (permutation_42 n) in
    read_csv fs csv_path = Ok df0 /\
    lookup df0 "sex" = Some sex0 /\
    lookup df0 "species" = Some species0 /\
    Series_.len species0 = n /\
    df ns = setitem (setitem df0 "sex" (IntS sex_codes)) "species" (IntS species_codes) /\
    X ns = [("sex"%string, IntS sex_codes)] /\
    y ns = IntS species_codes /\
    sklearn.validate_shuffle_split n (3 # 10) = Ok (n_train, n_test) /\
    X_train ns = [("sex"%string, IntS (map (fun i => nth i sex_codes 0%Z) train))] /\
    X_test ns = [("sex"%string, IntS (map (fun i => nth i sex_codes 0%Z) test))] /\
    y_train ns = IntS (map (fun i => nth i species_codes 0%Z) train) /\
    y_test ns = IntS (map (fun i => nth i species_codes 0%Z) test) /\
    fit (X_train ns) (y_train ns) = Ok (model ns) /\
    predict (model ns) (X_test ns) = Ok (y_pred ns) /\
    sklearn.accuracy_score (y_test ns) (y_pred ns) = Ok (accuracy ns) /\
    stdout k' = stdout k ++
      [PrintFrame (to_string df0);
       PrintFloat "Accuracy: " (accuracy ns);
       PrintLine (if Float64.gt (accuracy ns) Float64.lit_0_5
                  then has_power else no_power)] /\
    np_random k' = np_random k.
Proof.
  unfold notebook, cell_1, cell_2; intros Hrun.
  run_step Hrun as df0 Hcell.
  run_step Hcell as df0' Hread.
  run_step Hcell as u Hprint.
  unfold ret in Hcell; injection Hcell as <- <-.
  run_step Hrun as sex0 Hsex.
  run_step Hrun as species0 Hspecies.
  run_step Hrun as X0 HX.
  run_step Hrun as y0 Hy.
  run_step Hrun as [[[X_tr X_te] y_tr] y_te] Hsplit.
  run_step Hrun as m Hfit.
  run_step Hrun as yp Hpred.
  run_step Hrun as acc Hacc.
  run_step Hrun as u1 Hp1.
  run_step Hrun as u2 Hp2.
  unfold ret in Hrun; injection Hrun as <- <-.
  cbn [df X y X_train X_test y_train y_test model y_pred accuracy].
  apply getitem_Ok in Hsex, Hspecies, Hy.
  rewrite lookup_setitem_other in Hspecies by discriminate.
  rewrite lookup_setitem_same in Hy; injection Hy as <-.
  apply getitem_list_single in HX as (s & Hs & ->).
  rewrite lookup_setitem_other, lookup_setitem_same in Hs by discriminate.
  injection Hs as <-.
  apply train_test_split_Ok in Hsplit
    as (n_train & n_test & Hlen & Hval & HXtr & HXte & Hytr & Hyte & ->).
  unfold cat_codes in *; cbn [pandas.len Series_.len] in *.
  destruct (astype_category_codes sex0) as [Hlsex _].
  destruct (astype_category_codes species0) as [Hlsp _].
  rewrite Hlsex in *; rewrite Hlsp in *.
  apply iloc_single in HXtr as [_ ->], HXte as [_ ->].
  apply Series_iloc_IntS in Hytr as [_ ->], Hyte as [_ ->].
  assert (Hk1 : k1 = {| stdout := (stdout k ++ [PrintFrame (to_string df0')])
                          ++ [PrintFloat "Accuracy: " acc]
                          ++ [PrintLine (if Float64.gt acc Float64.lit_0_5
                                         then has_power else no_power)];
                        np_random := np_random k |}).
  { unfold interpret in Hp2.
    destruct (Float64.gt acc Float64.lit_0_5);
      apply print_Ok in Hp2; subst k1; cbn [stdout np_random];
      now rewrite <- app_assoc. }
  subst k1; cbn [stdout np_random].
  exists df0', sex0, species0, n_train, n_test.
  rewrite <- app_assoc.
  repeat split; auto.
Qed.


(** *** Runs do not depend on the kernel they start in *)

Lemma kernel_eta (k : Kernel) :
  {| stdout := stdout k ++ []; np_random := np_random k |} = k.
Proof. destruct k; cbn [stdout np_random]; now rewrite app_nil_r. Qed.

Lemma obl_lift {A} (r : Result A) : obl (lift r).
Proof. exists [], r; intros k; unfold lift; now rewrite kernel_eta. Qed.

Lemma obl_ret {A} (a : A) : obl (ret a).
Proof. exists [], (Ok a); intros k; unfold ret; now rewrite kernel_eta. Qed.

Lemma obl_print (o : Output) : obl (print o).
Proof. exists [o], (Ok tt); intros k; reflexivity. Qed.

Lemma obl_bind {A B} (c : Cell A) (f : A -> Cell B) :
  obl c -> (forall a, obl (f a)) -> obl (bind c f).
Proof.
  intros (out1 & [a|e] & Hc) Hf.
  - destruct (Hf a) as (out2 & r & Hfa).
    exists (out1 ++ out2), r; intros k; unfold bind.
    rewrite Hc, Hfa; cbn [stdout np_random]; now rewrite app_assoc.
  - exists out1, (Raise e); intros k; unfold bind; now rewrite Hc.
Qed.

Lemma obl_rng_permutation seed n : obl (sklearn.rng_permutation (Some seed) n).
Proof.
  exists [], (Ok (fst (numpy.permutation (RandomState_seed seed) n))).
  intros k; unfold sklearn.rng_permutation; now rewrite kernel_eta.
Qed.

Lemma obl_train_test_split X y test_size seed :
  obl (sklearn.train_test_split X y test_size (Some seed)).
Proof.
  unfold sklearn.train_test_split.
  destruct (negb (pandas.len X =? Series_.len y)); [apply obl_lift|].
  apply obl_bind; [apply obl_lift | intros [n_train n_test]].
  apply obl_bind; [apply obl_rng_permutation | intros perm].
  unfold sklearn.split_indices.
  repeat (apply obl_bind; [apply obl_lift | intros ?]).
  apply obl_ret.
Qed.

Lemma obl_notebook fs : obl (notebook fs).
Proof.
  unfold notebook, cell_1, cell_2, interpret.
  repeat first
    [ apply obl_ret
    | apply obl_lift
    | apply obl_print
    | apply obl_train_test_split
    | apply obl_bind; [|intros ?]
    | match goal with
      | |- obl (match ?x with _ => _ end) => destruct x
      end ].
Qed.

Lemma read_csv_path fs1 fs2 path :
  fs1 path = fs2 path -> read_csv fs1 path = read_csv fs2 path.
Proof. unfold read_csv; now intros ->. Qed.

Lemma notebook_reads_one_file fs1 fs2 k :
  fs1 csv_path = fs2 csv_path ->
  notebook fs1 k = notebook fs2 k.
Proof.
  intros Hfs; unfold notebook, cell_1, bind at 1 2, lift.
  now rewrite (read_csv_path fs1 fs2 _ Hfs).
Qed.

End Runs.

(** ** Lists without repetition *)

Lemma NoDup_app_disjoint {A} (l1 l2 : list A) :
  NoDup (l1 ++ l2) -> forall a, In a l1 -> ~ In a l2.
Proof.
  induction l1 as [|x l1 IH]; simpl; [tauto|].
  intros Hnd a [->|Hin] Hin2; inversion Hnd as [|? ? Hnotin Hnd']; subst.
  - apply Hnotin, in_or_app; auto.
  - exact (IH Hnd' a Hin Hin2).
Qed.

(** ** Scoring *)

Lemma count_correct_zip u v :
  length u = length v ->
  count_occ bool_dec (sklearn.zip_with Z.eqb u v) true = count_correct u v.
Proof.
  unfold count_correct, sklearn.zip_with.
  revert v; induction u as [|a u IH]; intros [|b v] Hlen;
    try discriminate; [reflexivity|].
  injection Hlen as Hlen.
  cbn [length combine map fst snd].
  rewrite <- cons_seq, <- seq_shift.
  cbn [filter nth].
  rewrite filter_map_swap.
  cbn [count_occ].
  specialize (IH v Hlen).
  destruct (a =? b)%Z; destruct (bool_dec _ true) as [E|E];
    try discriminate; try (exfalso; apply E; reflexivity);
    cbn [length]; rewrite length_map, IH; reflexivity.
Qed.

Lemma accuracy_score_IntS u yp acc :
  sklearn.accuracy_score (IntS u) yp = Ok acc ->
  exists v, yp = IntS v /\ length v = length u /\
            acc = Float64.div (Float64.of_int (Z.of_nat (count_correct u v)))
                              (Float64.of_int (Z.of_nat (length u))).
Proof.
  unfold sklearn.accuracy_score.
  destruct (Nat.eqb_spec (Series_.len (IntS u)) (Series_.len yp)) as [Hlen|];
    [|discriminate].
  cbn [negb].
  destruct yp as [v|v|v|v]; cbn [sklearn.eq_elementwise]; try discriminate.
  cbn [Series_.len] in Hlen.
  intros [= <-]; exists v; repeat split; auto.
  unfold numpy.mean.
  rewrite (count_correct_zip u v Hlen).
  unfold sklearn.zip_with; rewrite length_map, length_combine, <- Hlen, Nat.min_id.
  reflexivity.
Qed.

(** ** Tables *)

Lemma lookup_In df key s : lookup df key = Some s -> In (key, s) df.
Proof.
  induction df as [|[name s'] rest IH]; simpl; [discriminate|].
  destruct (String.eqb_spec name key) as [->|Hne].
  - intros [= ->]; auto.
  - auto.
Qed.

Lemma rectangular_lookup df key s :
  rectangular df -> lookup df key = Some s -> Series_.len s = pandas.len df.
Proof. intros Hrect Hl; apply (Hrect key), lookup_In, Hl. Qed.

Lemma to_string_small df :
  pandas.len df <= max_rows -> length df <= max_columns ->
  shows_all (to_string df) df.
Proof.
  intros Hr Hc; unfold shows_all, to_string.
  apply Nat.ltb_ge in Hr, Hc; rewrite Hr, Hc; auto.
Qed.

Lemma to_string_long df :
  max_rows < pandas.len df -> length df <= max_columns ->
  to_string df =
  {| tr_frame := map (fun c => (fst c, Series_.head_tail 5 (snd c))) df;
     truncated_v := true;
     truncated_h := false;
     dimensions := Some (pandas.len df, length df) |}.
Proof.
  intros Hr Hc; unfold to_string.
  apply Nat.ltb_lt in Hr; apply Nat.ltb_ge in Hc; rewrite Hr, Hc.
  reflexivity.
Qed.

Lemma to_string_shows_all df :
  shows_all (to_string df) df <->
  pandas.len df <= max_rows /\ length df <= max_columns.
Proof.
  split.
  - unfold shows_all, to_string; cbn [truncated_v truncated_h].
    intros (_ & Hv & Hh).
    apply Nat.ltb_ge in Hv, Hh; auto.
  - intros [Hr Hc]; now apply to_string_small.
Qed.

Lemma to_string_cut df :
  max_rows < pandas.len df \/ max_columns < length df ->
  dimensions (to_string df) = Some (pandas.len df, length df).
Proof.
  unfold to_string; cbn [dimensions]; intros [Hr|Hc].
  - apply Nat.ltb_lt in Hr; rewrite Hr, orb_true_r; reflexivity.
  - apply Nat.ltb_lt in Hc; rewrite Hc; reflexivity.
Qed.

Lemma to_string_wide df :
  max_columns < length df ->
  to_string df =
  let kept := firstn 10 df ++ lastn 10 df in
  {| tr_frame :=
       if max_rows <? pandas.len df
       then map (fun c => (fst c, Series_.head_tail 5 (snd c))) kept
       else kept;
     truncated_v := max_rows <? pandas.len df;
     truncated_h := true;
     dimensions := Some (pandas.len df, length df) |}.
Proof.
  intros Hc; unfold to_string.
  apply Nat.ltb_lt in Hc; rewrite Hc; reflexivity.
Qed.

(** ** The binary64 product behind the test size *)

Lemma binary64_agrees_from_spec count n :
  sklearn.binary64_agrees_from count n = true ->
  forall m, (n <= m < n + Z.of_nat count)%Z ->
    sklearn.binary64_n_test m = Some ((3 * m + 9) / 10)%Z.
Proof.
  revert n; induction count as [|count IH]; intros n Hall m Hm; [lia|].
  cbn [sklearn.binary64_agrees_from] in Hall.
  apply andb_prop in Hall as [Hn Hrest].
  destruct (Z.eq_dec m n) as [->|Hne].
  - destruct (sklearn.binary64_n_test n) as [t|]; [|discriminate].
    apply Z.eqb_eq in Hn; now subst.
  - apply (IH (n + 1)%Z Hrest); lia.
Qed.

(** For every table of fewer than 10000 rows, scikit-learn's binary64
    computation of the test size and the exact one used in
    [validate_shuffle_split] give the same number. *)
Lemma binary64_test_size_agrees m :
  (0 <= m < 10000)%Z ->
  sklearn.binary64_n_test m = Some (Qceiling ((3 # 10) * inject_Z m)).
Proof.
  intros Hm; rewrite ceiling_three_tenths.
  apply (binary64_agrees_from_spec (Z.to_nat 10000) 0%Z);
    [vm_cast_no_check (eq_refl true) | rewrite Z2Nat.id; lia].
Qed.

Lemma binary64_n_test_of_nat n :
  (Z.of_nat n < 10000)%Z ->
  sklearn.binary64_n_test (Z.of_nat n) = Some (Z.of_nat ((3 * n + 9) / 10)).
Proof.
  intros Hn; rewrite binary64_test_size_agrees, ceiling_three_tenths by lia.
  now rewrite Nat2Z.inj_div, Nat2Z.inj_add, Nat2Z.inj_mul.
Qed.

(** The agreement does not extend to every size: at 3377699720527877
    rows the exact product is 1013309916158363.1 and rounds up to
    ...364, while the binary64 product is a tie between ...363.0 and
    ...363.125 and rounds to the former. *)
Example binary64_test_size_differs :
  sklearn.binary64_n_test 3377699720527877 = Some 1013309916158363%Z /\
  Qceiling ((3 # 10) * inject_Z 3377699720527877) = 1013309916158364%Z.
Proof. split; vm_compute; reflexivity. Qed.

(** ** The claims *)

Section Claims.
Context `{Libraries}.

(** C1.  In a run that reaches the end, the verdict printed after the
    accuracy is the sentence "has some predictive power" exactly when the
    accuracy is greater than 0.5 (as floats: NaN is not greater), and the
    sentence "does not have predictive power" exactly when it is not; of
    the two sentences exactly one is printed, once. *)
Theorem C1_verdict_threshold fs k k' ns :
  notebook fs k = (k', Ok ns) ->
  exists printed,
    stdout k' = stdout k ++ printed /\
    (filter is_verdict printed = [PrintLine has_power] <->
     Float64.gt (accuracy ns) Float64.lit_0_5 = true) /\
    (filter is_verdict printed = [PrintLine no_power] <->
     Float64.gt (accuracy ns) Float64.lit_0_5 = false).
Proof.
  intros Hrun.
  destruct (notebook_completed _ _ _ _ Hrun)
    as (df0 & sex0 & species0 & n_train & n_test & Hc).
  cbv zeta in Hc; decompose [and] Hc; clear Hc.
  eexists; split; [eassumption|].
  destruct (Float64.gt (accuracy ns) Float64.lit_0_5);
    split; split; try reflexivity; try discriminate;
    intros _; reflexivity.
Qed.

(** C2.  The split sends the rows of an [n]-row table to a training
    and a test partition that hold 70% and 30% of the rows to within one
    row: the test partition has 3n/10 rows rounded up to a whole row,
    the training partition the remaining rows, which is 7n/10 rounded
    down.  Each row is in exactly one of the two, and the rows chosen
    are those the generator seeded with 42 picks, whatever the state of
    the global generator.  The test size is that of the exact product
    3n/10; for a table of fewer than 10000 rows it is the number
    scikit-learn's binary64 computation of ceil(0.3 * n) gives. *)
Theorem C2_split_partition fs k k' ns :
  notebook fs k = (k', Ok ns) ->
  exists train test,
    let n := pandas.len (X ns) in
    (train, test) =
      sklearn.split_indices (n - (3 * n + 9) / 10) ((3 * n + 9) / 10)
                            (permutation_42 n) /\
    Permutation (train ++ test) (seq 0 n) /\
    NoDup (train ++ test) /\
    length test = (3 * n + 9) / 10 /\
    3 * n <= 10 * length test < 3 * n + 10 /\
    length train = n - length test /\
    (10 * length train <= 7 * n < 10 * length train + 10) /\
    ((Z.of_nat n < 10000)%Z ->
     sklearn.binary64_n_test (Z.of_nat n) = Some (Z.of_nat (length test))) /\
    0 < length train /\
    pandas.iloc (X ns) train = Ok (X_train ns) /\
    pandas.iloc (X ns) test = Ok (X_test ns) /\
    Series_.iloc (y ns) train = Ok (y_train ns) /\
    Series_.iloc (y ns) test = Ok (y_test ns) /\
    pandas.len (X_train ns) = length train /\
    pandas.len (X_test ns) = length test /\
    (forall df0, read_csv fs csv_path = Ok df0 -> rectangular df0 ->
                 n = pandas.len df0).
Proof.
  intros Hrun.
  destruct (notebook_completed _ _ _ _ Hrun)
    as (df0 & sex0 & species0 & n_train & n_test & Hc).
  cbv zeta in Hc.
  destruct Hc as (Hread & Hsex & Hsp & Hlen & Hdf & HX & Hy & Hval & HXtr &
                  HXte & Hytr & Hyte & _).
  destruct (astype_category_codes sex0) as [Hlsex _].
  destruct (astype_category_codes species0) as [Hlsp _].
  destruct (split_sizes _ _ _ Hval) as (Hn & Hntest & Hsum & Htr & Hte & Hbound).
  set (n := Series_.len sex0) in *.
  assert (HlenX : pandas.len (X ns) = n)
    by (rewrite HX; cbn [pandas.len Series_.len]; exact Hlsex).
  destruct (split_indices_partition n n_train n_test _ _ Hsum eq_refl)
    as (Hperm & Hltrain & Hltest).
  set (train := firstn n_train (skipn n_test (permutation_42 n))) in *.
  set (test := firstn n_test (permutation_42 n)) in *.
  assert (Hin : forall i, In i (train ++ test) -> i < n).
  { intros i Hi; apply (Permutation_in _ Hperm) in Hi.
    apply in_seq in Hi; lia. }
  assert (Htake : forall (v : list Z) idx, length v = n ->
            (forall i, In i idx -> In i (train ++ test)) ->
            take v idx = Some (map (fun i => nth i v 0%Z) idx)).
  { intros v idx Hv Hsub; apply (take_Some_iff 0%Z); split; [|reflexivity].
    apply Forall_forall; intros i Hi; rewrite Hv; auto. }
  exists train, test; cbv zeta; rewrite HlenX.
  assert (En : n - (3 * n + 9) / 10 = n_train) by lia.
  assert (Hb : (Z.of_nat n < 10000)%Z ->
               sklearn.binary64_n_test (Z.of_nat n) = Some (Z.of_nat (length test)))
    by (intros Hlt; rewrite Hltest, Hntest; now apply binary64_n_test_of_nat).
  rewrite En, <- Hntest.
  refine (conj eq_refl (conj Hperm (conj _ (conj Hltest (conj _ (conj _
         (conj _ (conj Hb (conj _ _))))))))); try lia.
  2: repeat split; try lia; auto.
  - eapply Permutation_NoDup; [symmetry; exact Hperm | apply seq_NoDup].
  - rewrite HX, HXtr; cbn [pandas.iloc Series_.iloc try_bind].
    unfold Series_.lift_take; rewrite (Htake _ train); auto.
    intros i Hi; apply in_or_app; auto.
  - rewrite HX, HXte; cbn [pandas.iloc Series_.iloc try_bind].
    unfold Series_.lift_take; rewrite (Htake _ test); auto.
    intros i Hi; apply in_or_app; auto.
  - rewrite Hy, Hytr; cbn [Series_.iloc].
    unfold Series_.lift_take; rewrite (Htake _ train); auto; try lia.
    intros i Hi; apply in_or_app; auto.
  - rewrite Hy, Hyte; cbn [Series_.iloc].
    unfold Series_.lift_take; rewrite (Htake _ test); auto; try lia.
    intros i Hi; apply in_or_app; auto.
  - rewrite HXtr; cbn [pandas.len Series_.len]; now rewrite length_map.
  - rewrite HXte; cbn [pandas.len Series_.len]; now rewrite length_map.
  - intros df1 Hread1 Hrect.
    assert (df1 = df0) by congruence; subst df1.
    exact (rectangular_lookup _ _ _ Hrect Hsex).
Qed.

(** C3.  Before the split and the fit, the [sex] and the [species] column
    of the table are each replaced by integer codes of the column that was
    loaded: one code per row; two rows holding a value get the same code
    exactly when they hold the same value; every row with a missing value
    gets the one code -1, which no row holding a value gets.  The feature
    table and the target are these code columns. *)
Theorem C3_category_codes fs k k' ns :
  notebook fs k = (k', Ok ns) ->
  exists df0 sex0 species0 sex_codes species_codes,
    read_csv fs csv_path = Ok df0 /\
    lookup df0 "sex" = Some sex0 /\
    lookup df0 "species" = Some species0 /\
    lookup (df ns) "sex" = Some (IntS sex_codes) /\
    lookup (df ns) "species" = Some (IntS species_codes) /\
    codes_column sex0 sex_codes /\
    codes_column species0 species_codes /\
    X ns = [("sex"%string, IntS sex_codes)] /\
    y ns = IntS species_codes.
Proof.
  intros Hrun.
  destruct (notebook_completed _ _ _ _ Hrun)
    as (df0 & sex0 & species0 & n_train & n_test & Hc).
  cbv zeta in Hc.
  destruct Hc as (Hread & Hsex & Hsp & Hlen & Hdf & HX & Hy & _).
  exists df0, sex0, species0,
    (codes (astype_category sex0)), (codes (astype_category species0)).
  refine (conj Hread (conj Hsex (conj Hsp (conj _ (conj _
    (conj (astype_category_codes _) (conj (astype_category_codes _)
    (conj HX Hy)))))))).
  - rewrite Hdf, lookup_setitem_other, lookup_setitem_same by discriminate.
    reflexivity.
  - rewrite Hdf, lookup_setitem_same; reflexivity.
Qed.

(** C4.  The classifier is fitted on a feature table whose only column is
    the sex code and on the species code as target, both restricted to
    the training rows; it predicts on the sex codes of the test rows and
    of no other row; no test row is a training row; the accuracy compares
    these predictions with the species codes of the test rows. *)
Theorem C4_fit_and_predict fs k k' ns :
  notebook fs k = (k', Ok ns) ->
  exists sex_codes species_codes train test,
    lookup (df ns) "sex" = Some (IntS sex_codes) /\
    lookup (df ns) "species" = Some (IntS species_codes) /\
    X ns = [("sex"%string, IntS sex_codes)] /\
    y ns = IntS species_codes /\
    NoDup (train ++ test) /\
    (forall i, In i test -> ~ In i train) /\
    X_train ns = [("sex"%string, IntS (map (fun i => nth i sex_codes 0%Z) train))] /\
    y_train ns = IntS (map (fun i => nth i species_codes 0%Z) train) /\
    X_test ns = [("sex"%string, IntS (map (fun i => nth i sex_codes 0%Z) test))] /\
    y_test ns = IntS (map (fun i => nth i species_codes 0%Z) test) /\
    fit (X_train ns) (y_train ns) = Ok (model ns) /\
    predict (model ns) (X_test ns) = Ok (y_pred ns) /\
    sklearn.accuracy_score (y_test ns) (y_pred ns) = Ok (accuracy ns).
Proof.
  intros Hrun.
  destruct (notebook_completed _ _ _ _ Hrun)
    as (df0 & sex0 & species0 & n_train & n_test & Hc).
  cbv zeta in Hc.
  destruct Hc as (Hread & Hsex & Hsp & Hlen & Hdf & HX & Hy & Hval & HXtr &
                  HXte & Hytr & Hyte & Hfit & Hpred & Hacc & _).
  destruct (split_sizes _ _ _ Hval) as (_ & _ & Hsum & _).
  destruct (split_indices_partition _ n_train n_test _ _ Hsum eq_refl)
    as (Hperm & _).
  assert (Hnd : NoDup (firstn n_train (skipn n_test (permutation_42 (Series_.len sex0)))
                       ++ firstn n_test (permutation_42 (Series_.len sex0))))
    by (eapply Permutation_NoDup; [symmetry; exact Hperm | apply seq_NoDup]).
  do 4 eexists.
  repeat split; try eassumption.
  - rewrite Hdf, lookup_setitem_other, lookup_setitem_same by discriminate.
    reflexivity.
  - rewrite Hdf, lookup_setitem_same; reflexivity.
  - intros i Hte Htr.
    exact (NoDup_app_disjoint _ _ Hnd i Htr Hte).
Qed.

(** C5.  The accuracy is the number of test rows whose predicted species
    code is the true one, divided (as Python floats) by the number of test
    rows. *)
Theorem C5_accuracy_fraction fs k k' ns :
  notebook fs k = (k', Ok ns) ->
  exists truth pred,
    y_test ns = IntS truth /\
    y_pred ns = IntS pred /\
    length pred = length truth /\
    length truth = pandas.len (X_test ns) /\
    accuracy ns =
      Float64.div (Float64.of_int (Z.of_nat (count_correct truth pred)))
                  (Float64.of_int (Z.of_nat (length truth))).
Proof.
  intros Hrun.
  destruct (notebook_completed _ _ _ _ Hrun)
    as (df0 & sex0 & species0 & n_train & n_test & Hc).
  cbv zeta in Hc.
  destruct Hc as (_ & _ & _ & _ & _ & _ & _ & _ & _ & HXte & _ & Hyte & _ &
                  _ & Hacc & _).
  rewrite Hyte in Hacc.
  apply accuracy_score_IntS in Hacc as (pred & Hpred & Hlen & Hacc).
  refine (ex_intro _ _ (ex_intro _ pred
    (conj Hyte (conj Hpred (conj Hlen (conj _ Hacc)))))).
  rewrite HXte; cbn [pandas.len Series_.len]; now rewrite !length_map.
Qed.

(** C6.  The outcome of a run, and so the accuracy, is a function of the
    text found at the notebook's path alone: two runs that find the same
    text there end in the same way, with the same accuracy and the same
    printed lines, whatever was printed before, whatever the state of the
    global generator and whatever else the file system holds. *)
Theorem C6_reproducible fs1 fs2 k1 k2 :
  fs1 csv_path = fs2 csv_path ->
  snd (notebook fs1 k1) = snd (notebook fs2 k2) /\
  (forall ns1 ns2,
     snd (notebook fs1 k1) = Ok ns1 -> snd (notebook fs2 k2) = Ok ns2 ->
     accuracy ns1 = accuracy ns2) /\
  exists printed,
    stdout (fst (notebook fs1 k1)) = stdout k1 ++ printed /\
    stdout (fst (notebook fs2 k2)) = stdout k2 ++ printed.
Proof.
  intros Hfs.
  destruct (obl_notebook fs2) as (out & r & Hobl).
  rewrite (notebook_reads_one_file fs1 fs2 k1 Hfs), (Hobl k1), (Hobl k2).
  cbn [fst snd stdout]; repeat split; eauto.
  intros ns1 ns2 -> [= ->]; reflexivity.
Qed.

Lemma obl_cell_2 df0 : obl (cell_2 df0).
Proof.
  unfold cell_2, interpret.
  repeat first
    [ apply obl_ret
    | apply obl_lift
    | apply obl_print
    | apply obl_train_test_split
    | apply obl_bind; [|intros ?]
    | match goal with
      | |- obl (match ?x with _ => _ end) => destruct x
      end ].
Qed.

(** Whatever the run does after a successful read, the rendering of the
    loaded table is the first thing it has printed. *)
Lemma notebook_prints_table_first fs k df0 :
  read_csv fs csv_path = Ok df0 ->
  exists rest,
    stdout (fst (notebook fs k)) = stdout k ++ PrintFrame (to_string df0) :: rest.
Proof.
  intros Hread.
  destruct (obl_cell_2 df0) as (out & r & Hobl).
  exists out.
  unfold notebook, cell_1, bind at 1 2 3, lift, print, ret.
  rewrite Hread, Hobl; cbn [fst stdout].
  now rewrite <- app_assoc.
Qed.

(** C7 (amended).  A run prints nothing before the rendering of the loaded
    table.  A run that reaches the end has printed, in this order and
    nothing else: the rendering of the loaded table, the accuracy, one
    verdict sentence.  The rendering is the whole table exactly when the
    table has at most 60 rows and at most 20 columns; otherwise it ends
    with the line of the table's dimensions.  A table of more than 60
    rows is rendered by the first five and the last five entries of
    every column shown; a table of more than 20 columns by its first ten
    and its last ten columns; a table that is both too long and too wide
    is cut both ways. *)
Theorem C7_output_order fs k k' r :
  notebook fs k = (k', r) ->
  (exists printed,
     stdout k' = stdout k ++ printed /\
     (printed = [] \/
      exists df0 rest, read_csv fs csv_path = Ok df0 /\
                       printed = PrintFrame (to_string df0) :: rest)) /\
  (forall ns, r = Ok ns ->
     exists df0 verdict,
       read_csv fs csv_path = Ok df0 /\
       stdout k' = stdout k ++
         [PrintFrame (to_string df0);
          PrintFloat "Accuracy: " (accuracy ns);
          PrintLine verdict] /\
       (verdict = has_power \/ verdict = no_power) /\
       (pandas.len df0 <= max_rows -> length df0 <= max_columns ->
        shows_all (to_string df0) df0) /\
       (max_rows < pandas.len df0 -> length df0 <= max_columns ->
        to_string df0 =
        {| tr_frame := map (fun c => (fst c, Series_.head_tail 5 (snd c))) df0;
           truncated_v := true;
           truncated_h := false;
           dimensions := Some (pandas.len df0, length df0) |}) /\
       (max_columns < length df0 ->
        to_string df0 =
        let kept := firstn 10 df0 ++ lastn 10 df0 in
        {| tr_frame :=
             if max_rows <? pandas.len df0
             then map (fun c => (fst c, Series_.head_tail 5 (snd c))) kept
             else kept;
           truncated_v := max_rows <? pandas.len df0;
           truncated_h := true;
           dimensions := Some (pandas.len df0, length df0) |}) /\
       (shows_all (to_string df0) df0 <->
        pandas.len df0 <= max_rows /\ length df0 <= max_columns) /\
       (max_rows < pandas.len df0 \/ max_columns < length df0 ->
        dimensions (to_string df0) = Some (pandas.len df0, length df0))).
Proof.
  intros Hrun; split.
  - destruct (read_csv fs csv_path) as [df0|e] eqn:Hread.
    + destruct (notebook_prints_table_first fs k df0 Hread) as (rest & Hout).
      rewrite Hrun in Hout; cbn [fst] in Hout.
      eexists; split; [exact Hout|]; right; eauto.
    + exists []; split; [|auto].
      unfold notebook, cell_1, bind at 1 2, lift in Hrun.
      rewrite Hread in Hrun; injection Hrun as <- _.
      now rewrite app_nil_r.
  - intros ns ->.
    destruct (notebook_completed _ _ _ _ Hrun)
      as (df0 & sex0 & species0 & n_train & n_test & Hc).
    cbv zeta in Hc.
    destruct Hc as (Hread & _ & _ & _ & _ & _ & _ & _ & _ & _ & _ & _ & _ &
                    _ & _ & Hout & _).
    exists df0; eexists.
    refine (conj Hread (conj Hout (conj _
      (conj (to_string_small df0) (conj (to_string_long df0)
      (conj (to_string_wide df0) (conj (to_string_shows_all df0)
      (to_string_cut df0)))))))).
    destruct (Float64.gt (accuracy ns) Float64.lit_0_5); auto.
Qed.

(** C8.  Cell 1 opens the one fixed path and hands the text to the
    library's parser, and does nothing else: when reading fails, because
    there is no file at the path or because the parser rejects the text,
    the run ends there with that very exception, and has printed
    nothing. *)
Theorem C8_read_errors_propagate fs k e :
  read_csv fs csv_path = Raise e ->
  notebook fs k = (k, Raise e) /\
  (fs csv_path = None /\ e = FileNotFoundError csv_path \/
   exists text, fs csv_path = Some text /\ parse_csv text = Raise e).
Proof.
  intros Hread; split.
  - unfold notebook, cell_1, bind at 1 2, lift; now rewrite Hread.
  - unfold read_csv in Hread.
    destruct (fs csv_path) as [text|].
    + right; eauto.
    + left; split; congruence.
Qed.

(** C9.  A missing [sex] (or [species]) entry is coded -1, and no row is
    dropped: the training and the test rows together are all the rows of
    the loaded table, each once, and the feature the model receives for a
    row, in training or in test, is the sex code of that row, which is -1
    where the sex is missing. *)
Theorem C9_missing_rows_kept fs k k' ns :
  notebook fs k = (k', Ok ns) ->
  exists df0 sex0 species0 sex_codes species_codes train test,
    read_csv fs csv_path = Ok df0 /\
    lookup df0 "sex" = Some sex0 /\
    lookup df0 "species" = Some species0 /\
    (rectangular df0 -> Series_.len sex0 = pandas.len df0) /\
    (forall i a, Series_.iat sex0 i = Some a -> isna a = true ->
                 nth i sex_codes 0%Z = (-1)%Z) /\
    (forall i a, Series_.iat species0 i = Some a -> isna a = true ->
                 nth i species_codes 0%Z = (-1)%Z) /\
    Permutation (train ++ test) (seq 0 (Series_.len sex0)) /\
    X ns = [("sex"%string, IntS sex_codes)] /\
    y ns = IntS species_codes /\
    X_train ns = [("sex"%string, IntS (map (fun i => nth i sex_codes 0%Z) train))] /\
    X_test ns = [("sex"%string, IntS (map (fun i => nth i sex_codes 0%Z) test))] /\
    y_train ns = IntS (map (fun i => nth i species_codes 0%Z) train) /\
    y_test ns = IntS (map (fun i => nth i species_codes 0%Z) test).
Proof.
  intros Hrun.
  destruct (notebook_completed _ _ _ _ Hrun)
    as (df0 & sex0 & species0 & n_train & n_test & Hc).
  cbv zeta in Hc.
  destruct Hc as (Hread & Hsex & Hsp & Hlen & Hdf & HX & Hy & Hval & HXtr &
                  HXte & Hytr & Hyte & _).
  destruct (split_sizes _ _ _ Hval) as (_ & _ & Hsum & _).
  destruct (split_indices_partition _ n_train n_test _ _ Hsum eq_refl)
    as (Hperm & _).
  destruct (astype_category_codes sex0) as [_ Hsexc].
  destruct (astype_category_codes species0) as [_ Hspc].
  exists df0, sex0, species0,
    (codes (astype_category sex0)), (codes (astype_category species0)),
    (firstn n_train (skipn n_test (permutation_42 (Series_.len sex0)))),
    (firstn n_test (permutation_42 (Series_.len sex0))).
  refine (conj Hread (conj Hsex (conj Hsp (conj _ (conj _ (conj _
    (conj Hperm (conj HX (conj Hy (conj HXtr (conj HXte
    (conj Hytr Hyte)))))))))))).
  - intros Hrect; exact (rectangular_lookup _ _ _ Hrect Hsex).
  - intros i a Hi Ha; exact (proj1 (Hsexc i i a a Hi Hi) Ha).
  - intros i a Hi Ha; exact (proj1 (Hspc i i a a Hi Hi) Ha).
Qed.

(** C10.  The table the run ends with has the columns of the loaded table
    in the same order, and every column other than [sex] and [species],
    so each of [island], [culmen_length_mm], [culmen_depth_mm],
    [flipper_length_mm] and [body_mass_g], holds what was loaded. *)
Theorem C10_other_columns_unchanged fs k k' ns :
  notebook fs k = (k', Ok ns) ->
  exists df0,
    read_csv fs csv_path = Ok df0 /\
    column_names (df ns) = column_names df0 /\
    (forall key, key <> "sex"%string -> key <> "species"%string ->
                 lookup (df ns) key = lookup df0 key) /\
    lookup (df ns) "island" = lookup df0 "island" /\
    lookup (df ns) "culmen_length_mm" = lookup df0 "culmen_length_mm" /\
    lookup (df ns) "culmen_depth_mm" = lookup df0 "culmen_depth_mm" /\
    lookup (df ns) "flipper_length_mm" = lookup df0 "flipper_length_mm" /\
    lookup (df ns) "body_mass_g" = lookup df0 "body_mass_g".
Proof.
  intros Hrun.
  destruct (notebook_completed _ _ _ _ Hrun)
    as (df0 & sex0 & species0 & n_train & n_test & Hc).
  cbv zeta in Hc.
  destruct Hc as (Hread & Hsex & Hsp & Hlen & Hdf & _).
  assert (Hother : forall key, key <> "sex"%string -> key <> "species"%string ->
                               lookup (df ns) key = lookup df0 key).
  { intros key H1 H2; rewrite Hdf.
    now rewrite !lookup_setitem_other by assumption. }
  exists df0; split; [exact Hread|]; split; [|split; [exact Hother|]].
  - rewrite Hdf, !column_names_setitem; try congruence.
    rewrite lookup_setitem_other by discriminate; congruence.
  - repeat split; apply Hother; discriminate.
Qed.

End Claims.

(** The notebook's saved output reads [Accuracy: 0.4807692307692308].
    That is the double 50/104: 104 is the test size of a 344-row table,
    and the verdict for it is the one the saved output shows. *)
Example saved_accuracy :
  sklearn.validate_shuffle_split 344 (3 # 10) = Ok (240, 104) /\
  Float64.div (Float64.of_int 50) (Float64.of_int 104)
    = S754_finite false 8660768514174031 (-54) /\
  Float64.gt (S754_finite false 8660768514174031 (-54)) Float64.lit_0_5 = false.
Proof. repeat split; vm_compute; reflexivity. Qed.

(** The threshold is strict and NaN is on the side of "does not": an
    accuracy of exactly 0.5 and an accuracy that is not a number both get
    the negative verdict, the next double above 0.5 the positive one. *)
Example verdict_at_the_threshold :
  Float64.gt Float64.lit_0_5 Float64.lit_0_5 = false /\
  Float64.gt S754_nan Float64.lit_0_5 = false /\
  Float64.gt (S754_finite false 4503599627370497 (-53)) Float64.lit_0_5 = true.
Proof. repeat split. Qed.

(** Without a seed the split would follow the global generator: in the
    fixture, two kernels that differ in its state shuffle five rows
    differently.  With the seed the notebook passes they do not. *)
Remark unseeded_split_depends_on_kernel :
  let k1 := @Build_Kernel Fixture.libraries [] 1 in
  let k2 := @Build_Kernel Fixture.libraries [] 2 in
  snd (sklearn.rng_permutation None 5 k1) <> snd (sklearn.rng_permutation None 5 k2) /\
  snd (sklearn.rng_permutation (Some 42%Z) 5 k1)
    = snd (sklearn.rng_permutation (Some 42%Z) 5 k2).
Proof. split; [vm_compute; discriminate | reflexivity]. Qed.

(** ** The claims at work on concrete files *)

#[local] Existing Instance Fixture.libraries.

Lemma six_penguins_run :
  exists k' ns,
    notebook (H := Fixture.libraries) (Fixture.one_file Fixture.six_penguins)
             Fixture.fresh_kernel = (k', Ok ns).
Proof. do 2 eexists; vm_compute; reflexivity. Defined.

Lemma many_penguins_run :
  exists k' ns,
    notebook (H := Fixture.libraries) (Fixture.one_file Fixture.many_penguins)
             Fixture.fresh_kernel = (k', Ok ns).
Proof. do 2 eexists; vm_compute; reflexivity. Defined.

Lemma C1_witness :
  exists k' ns,
    notebook (H := Fixture.libraries) (Fixture.one_file Fixture.many_penguins)
             Fixture.fresh_kernel = (k', Ok ns) /\
    exists printed,
      stdout k' = stdout Fixture.fresh_kernel ++ printed /\
      (filter is_verdict printed = [PrintLine has_power] <->
       Float64.gt (accuracy ns) Float64.lit_0_5 = true) /\
      (filter is_verdict printed = [PrintLine no_power] <->
       Float64.gt (accuracy ns) Float64.lit_0_5 = false).
Proof.
  destruct many_penguins_run as (k' & ns & Hrun).
  exists k', ns; split; [exact Hrun|].
  exact (C1_verdict_threshold _ _ _ _ Hrun).
Defined.

Lemma C2_witness :
  exists k' ns,
    notebook (H := Fixture.libraries) (Fixture.one_file Fixture.six_penguins)
             Fixture.fresh_kernel = (k', Ok ns) /\
    exists train test,
      let n := pandas.len (X ns) in
      (train, test) =
        sklearn.split_indices (n - (3 * n + 9) / 10) ((3 * n + 9) / 10)
                              (permutation_42 n) /\
      Permutation (train ++ test) (seq 0 n) /\
      NoDup (train ++ test) /\
      length test = (3 * n + 9) / 10 /\
      3 * n <= 10 * length test < 3 * n + 10 /\
      length train = n - length test /\
      (10 * length train <= 7 * n < 10 * length train + 10) /\
      ((Z.of_nat n < 10000)%Z ->
       sklearn.binary64_n_test (Z.of_nat n) = Some (Z.of_nat (length test))) /\
      0 < length train /\
      pandas.iloc (X ns) train = Ok (X_train ns) /\
      pandas.iloc (X ns) test = Ok (X_test ns) /\
      Series_.iloc (y ns) train = Ok (y_train ns) /\
      Series_.iloc (y ns) test = Ok (y_test ns) /\
      pandas.len (X_train ns) = length train /\
      pandas.len (X_test ns) = length test /\
      (forall df0,
         read_csv (Fixture.one_file Fixture.six_penguins) csv_path = Ok df0 ->
         rectangular df0 -> n = pandas.len df0).
Proof.
  destruct six_penguins_run as (k' & ns & Hrun).
  exists k', ns; split; [exact Hrun|].
  exact (C2_split_partition _ _ _ _ Hrun).
Defined.

(** Rounding up shows on a short table.  On a file of four penguins the
    run completes with two training rows and two test rows: 30% of four
    rows is 1.2 rows, and the test partition gets the whole of the
    second. *)
Example four_rows_split_in_half :
  exists k' ns,
    notebook (H := Fixture.libraries) (Fixture.one_file Fixture.four_penguins)
             Fixture.fresh_kernel = (k', Ok ns) /\
    pandas.len (X ns) = 4 /\
    pandas.len (X_train ns) = 2 /\
    pandas.len (X_test ns) = 2.
Proof.
  do 2 eexists; split; [vm_compute; reflexivity|].
  cbn [X X_train X_test pandas.len Series_.len length].
  repeat split.
Qed.

Lemma C3_witness :
  exists k' ns,
    notebook (H := Fixture.libraries) (Fixture.one_file Fixture.six_penguins)
             Fixture.fresh_kernel = (k', Ok ns) /\
    exists df0 sex0 species0 sex_codes species_codes,
      read_csv (Fixture.one_file Fixture.six_penguins) csv_path = Ok df0 /\
      lookup df0 "sex" = Some sex0 /\
      lookup df0 "species" = Some species0 /\
      lookup (df ns) "sex" = Some (IntS sex_codes) /\
      lookup (df ns) "species" = Some (IntS species_codes) /\
      codes_column sex0 sex_codes /\
      codes_column species0 species_codes /\
      X ns = [("sex"%string, IntS sex_codes)] /\
      y ns = IntS species_codes.
Proof.
  destruct six_penguins_run as (k' & ns & Hrun).
  exists k', ns; split; [exact Hrun|].
  exact (C3_category_codes _ _ _ _ Hrun).
Defined.

Lemma C4_witness :
  exists k' ns,
    notebook (H := Fixture.libraries) (Fixture.one_file Fixture.six_penguins)
             Fixture.fresh_kernel = (k', Ok ns) /\
    exists sex_codes species_codes train test,
      lookup (df ns) "sex" = Some (IntS sex_codes) /\
      lookup (df ns) "species" = Some (IntS species_codes) /\
      X ns = [("sex"%string, IntS sex_codes)] /\
      y ns = IntS species_codes /\
      NoDup (train ++ test) /\
      (forall i, In i test -> ~ In i train) /\
      X_train ns = [("sex"%string, IntS (map (fun i => nth i sex_codes 0%Z) train))] /\
      y_train ns = IntS (map (fun i => nth i species_codes 0%Z) train) /\
      X_test ns = [("sex"%string, IntS (map (fun i => nth i sex_codes 0%Z) test))] /\
      y_test ns = IntS (map (fun i => nth i species_codes 0%Z) test) /\
      fit (X_train ns) (y_train ns) = Ok (model ns) /\
      predict (model ns) (X_test ns) = Ok (y_pred ns) /\
      sklearn.accuracy_score (y_test ns) (y_pred ns) = Ok (accuracy ns).
Proof.
  destruct six_penguins_run as (k' & ns & Hrun).
  exists k', ns; split; [exact Hrun|].
  exact (C4_fit_and_predict _ _ _ _ Hrun).
Defined.

Lemma C5_witness :
  exists k' ns,
    notebook (H := Fixture.libraries) (Fixture.one_file Fixture.many_penguins)
             Fixture.fresh_kernel = (k', Ok ns) /\
    exists truth pred,
      y_test ns = IntS truth /\
      y_pred ns = IntS pred /\
      length pred = length truth /\
      length truth = pandas.len (X_test ns) /\
      accuracy ns =
        Float64.div (Float64.of_int (Z.of_nat (count_correct truth pred)))
                    (Float64.of_int (Z.of_nat (length truth))).
Proof.
  destruct many_penguins_run as (k' & ns & Hrun).
  exists k', ns; split; [exact Hrun|].
  exact (C5_accuracy_fraction _ _ _ _ Hrun).
Defined.

Lemma C6_witness :
  Fixture.one_file Fixture.six_penguins csv_path
    = Fixture.crowded Fixture.six_penguins csv_path /\
  snd (notebook (Fixture.one_file Fixture.six_penguins) Fixture.fresh_kernel)
    = snd (notebook (Fixture.crowded Fixture.six_penguins) Fixture.used_kernel) /\
  (forall ns1 ns2,
     snd (notebook (Fixture.one_file Fixture.six_penguins) Fixture.fresh_kernel)
       = Ok ns1 ->
     snd (notebook (Fixture.crowded Fixture.six_penguins) Fixture.used_kernel)
       = Ok ns2 ->
     accuracy ns1 = accuracy ns2) /\
  exists printed,
    stdout (fst (notebook (Fixture.one_file Fixture.six_penguins)
                          Fixture.fresh_kernel))
      = stdout Fixture.fresh_kernel ++ printed /\
    stdout (fst (notebook (Fixture.crowded Fixture.six_penguins)
                          Fixture.used_kernel))
      = stdout Fixture.used_kernel ++ printed.
Proof.
  split; [reflexivity|].
  apply (C6_reproducible (H := Fixture.libraries)); reflexivity.
Defined.

Lemma C7_witness :
  exists k' r,
    notebook (Fixture.one_file Fixture.six_penguins) Fixture.fresh_kernel = (k', r) /\
    (exists printed,
       stdout k' = stdout Fixture.fresh_kernel ++ printed /\
       (printed = [] \/
        exists df0 rest,
          read_csv (Fixture.one_file Fixture.six_penguins) csv_path = Ok df0 /\
          printed = PrintFrame (to_string df0) :: rest)) /\
    (forall ns, r = Ok ns ->
       exists df0 verdict,
         read_csv (Fixture.one_file Fixture.six_penguins) csv_path = Ok df0 /\
         stdout k' = stdout Fixture.fresh_kernel ++
           [PrintFrame (to_string df0);
            PrintFloat "Accuracy: " (accuracy ns);
            PrintLine verdict] /\
         (verdict = has_power \/ verdict = no_power) /\
         (pandas.len df0 <= max_rows -> length df0 <= max_columns ->
          shows_all (to_string df0) df0) /\
         (max_rows < pandas.len df0 -> length df0 <= max_columns ->
          to_string df0 =
          {| tr_frame := map (fun c => (fst c, Series_.head_tail 5 (snd c))) df0;
             truncated_v := true;
             truncated_h := false;
             dimensions := Some (pandas.len df0, length df0) |}) /\
         (max_columns < length df0 ->
          to_string df0 =
          let kept := firstn 10 df0 ++ lastn 10 df0 in
          {| tr_frame :=
               if max_rows <? pandas.len df0
               then map (fun c => (fst c, Series_.head_tail 5 (snd c))) kept
               else kept;
             truncated_v := max_rows <? pandas.len df0;
             truncated_h := true;
             dimensions := Some (pandas.len df0, length df0) |}) /\
         (shows_all (to_string df0) df0 <->
          pandas.len df0 <= max_rows /\ length df0 <= max_columns) /\
         (max_rows < pandas.len df0 \/ max_columns < length df0 ->
          dimensions (to_string df0) = Some (pandas.len df0, length df0))).
Proof.
  destruct six_penguins_run as (k' & ns & Hrun).
  exists k', (Ok ns); split; [exact Hrun|].
  exact (C7_output_order _ _ _ _ Hrun).
Defined.

(** C7 as the specification words it.  On a file of 344 rows, the length
    of the notebook's own, the run completes and the first thing printed
    is a rendering of ten rows with the line [344 rows x 7 columns], as in
    the notebook's saved output: not the full table. *)
Lemma C7_counterexample :
  exists df0 k' ns text rest,
    read_csv (Fixture.one_file Fixture.many_penguins) csv_path = Ok df0 /\
    notebook (Fixture.one_file Fixture.many_penguins) Fixture.fresh_kernel
      = (k', Ok ns) /\
    stdout k' = PrintFrame text :: rest /\
    pandas.len df0 = 344 /\
    pandas.len (tr_frame text) = 10 /\
    lookup (tr_frame text) "species" =
      Some (ObjectS (repeat (Some "Adelie"%string) 5
                     ++ repeat (Some "Gentoo"%string) 5)) /\
    dimensions text = Some (344, 7) /\
    ~ shows_all text df0.
Proof.
  do 5 eexists.
  split; [vm_compute; reflexivity|].
  split; [vm_compute; reflexivity|].
  split; [cbn [stdout]; reflexivity|].
  split; [vm_compute; reflexivity|].
  split; [vm_compute; reflexivity|].
  split; [vm_compute; reflexivity|].
  split; [vm_compute; reflexivity|].
  intros [Hframe _].
  apply (f_equal pandas.len) in Hframe.
  vm_compute in Hframe; discriminate.
Qed.

Lemma C8_witness :
  (read_csv Fixture.no_file csv_path = Raise (FileNotFoundError csv_path) /\
   notebook Fixture.no_file Fixture.fresh_kernel
     = (Fixture.fresh_kernel, Raise (FileNotFoundError csv_path)) /\
   (Fixture.no_file csv_path = None /\
    FileNotFoundError csv_path = FileNotFoundError csv_path \/
    exists text, Fixture.no_file csv_path = Some text /\
                 parse_csv text = Raise (FileNotFoundError csv_path))) /\
  (read_csv (Fixture.one_file Fixture.malformed) csv_path
     = Raise (ParserError "Error tokenizing data") /\
   notebook (Fixture.one_file Fixture.malformed) Fixture.used_kernel
     = (Fixture.used_kernel, Raise (ParserError "Error tokenizing data")) /\
   (Fixture.one_file Fixture.malformed csv_path = None /\
    ParserError "Error tokenizing data" = FileNotFoundError csv_path \/
    exists text, Fixture.one_file Fixture.malformed csv_path = Some text /\
                 parse_csv text = Raise (ParserError "Error tokenizing data"))).
Proof.
  split; (split; [vm_compute; reflexivity|]);
    apply C8_read_errors_propagate; vm_compute; reflexivity.
Defined.

Lemma C9_witness :
  exists k' ns,
    notebook (Fixture.one_file Fixture.six_penguins) Fixture.fresh_kernel
      = (k', Ok ns) /\
    exists df0 sex0 species0 sex_codes species_codes train test,
      read_csv (Fixture.one_file Fixture.six_penguins) csv_path = Ok df0 /\
      lookup df0 "sex" = Some sex0 /\
      lookup df0 "species" = Some species0 /\
      (rectangular df0 -> Series_.len sex0 = pandas.len df0) /\
      (forall i a, Series_.iat sex0 i = Some a -> isna a = true ->
                   nth i sex_codes 0%Z = (-1)%Z) /\
      (forall i a, Series_.iat species0 i = Some a -> isna a = true ->
                   nth i species_codes 0%Z = (-1)%Z) /\
      Permutation (train ++ test) (seq 0 (Series_.len sex0)) /\
      X ns = [("sex"%string, IntS sex_codes)] /\
      y ns = IntS species_codes /\
      X_train ns = [("sex"%string, IntS (map (fun i => nth i sex_codes 0%Z) train))] /\
      X_test ns = [("sex"%string, IntS (map (fun i => nth i sex_codes 0%Z) test))] /\
      y_train ns = IntS (map (fun i => nth i species_codes 0%Z) train) /\
      y_test ns = IntS (map (fun i => nth i species_codes 0%Z) test).
Proof.
  destruct six_penguins_run as (k' & ns & Hrun).
  exists k', ns; split; [exact Hrun|].
  exact (C9_missing_rows_kept _ _ _ _ Hrun).
Defined.

(** The six-penguin file has a row without sex: the run keeps it, codes
    it -1, and it is one of the four training rows. *)
Example missing_sex_row_is_trained_on :
  exists k' ns,
    notebook (Fixture.one_file Fixture.six_penguins) Fixture.fresh_kernel
      = (k', Ok ns) /\
    X ns = [("sex"%string, IntS [1; 0; 0; -1; 1; 0]%Z)] /\
    X_train ns = [("sex"%string, IntS [0; 0; -1; 1]%Z)] /\
    X_test ns = [("sex"%string, IntS [1; 0]%Z)].
Proof. do 2 eexists; split; [vm_compute; reflexivity|]; repeat split. Qed.

Lemma C10_witness :
  exists k' ns,
    notebook (Fixture.one_file Fixture.six_penguins) Fixture.fresh_kernel
      = (k', Ok ns) /\
    exists df0,
      read_csv (Fixture.one_file Fixture.six_penguins) csv_path = Ok df0 /\
      column_names (df ns) = column_names df0 /\
      (forall key, key <> "sex"%string -> key <> "species"%string ->
                   lookup (df ns) key = lookup df0 key) /\
      lookup (df ns) "island" = lookup df0 "island" /\
      lookup (df ns) "culmen_length_mm" = lookup df0 "culmen_length_mm" /\
      lookup (df ns) "culmen_depth_mm" = lookup df0 "culmen_depth_mm" /\
      lookup (df ns) "flipper_length_mm" = lookup df0 "flipper_length_mm" /\
      lookup (df ns) "body_mass_g" = lookup df0 "body_mass_g".
Proof.
  destruct six_penguins_run as (k' & ns & Hrun).
  exists k', ns; split; [exact Hrun|].
  exact (C10_other_columns_unchanged _ _ _ _ Hrun).
Defined.

(* ================================================================== *)
(** * Part III: further properties of the notebook                     *)
(* ================================================================== *)

(** ** Running the notebook forwards *)

Section Forwards.
Context `{Libraries}.

Lemma bind_lift_Ok {A B} (a : A) (f : A -> Cell B) k :
  bind (lift (Ok a)) f k = f a k.
Proof. reflexivity. Qed.

Lemma bind_lift_Raise {A B} e (f : A -> Cell B) k :
  bind (lift (Raise e)) f k = (k, Raise e).
Proof. reflexivity. Qed.

Lemma bind_print {B} o (f : unit -> Cell B) k :
  bind (print o) f k
  = f tt {| stdout := stdout k ++ [o]; np_random := np_random k |}.
Proof. reflexivity. Qed.

Lemma notebook_after_read fs k df0 :
  read_csv fs csv_path = Ok df0 ->
  notebook fs k = cell_2 df0 (table_printed k df0).
Proof.
  intros Hread; unfold notebook, cell_1.
  unfold bind at 1 2; unfold lift at 1; rewrite Hread.
  reflexivity.
Qed.

Lemma rows_in_range n :
  2 <= n ->
  Forall (fun i => i < n) (train_rows n) /\ Forall (fun i => i < n) (test_rows n).
Proof.
  intros Hn.
  assert (H1 := Nat.div_mod (3 * n + 9) 10 ltac:(lia)).
  assert (H2 := Nat.mod_upper_bound (3 * n + 9) 10 ltac:(lia)).
  destruct (split_indices_partition n (n - n_test_of n) (n_test_of n) _ _
              ltac:(unfold n_test_of; lia) eq_refl) as (Hperm & _).
  fold (train_rows n) in Hperm; fold (test_rows n) in Hperm.
  assert (Hall : Forall (fun i => i < n) (train_rows n ++ test_rows n)).
  { apply Forall_forall; intros i Hi.
    apply (Permutation_in _ Hperm), in_seq in Hi; lia. }
  apply Forall_app in Hall; exact Hall.
Qed.

Lemma take_select (code : list Z) rows :
  Forall (fun i => i < length code) rows ->
  take code rows = Some (select code rows).
Proof. intros Hall; apply (take_Some_iff 0%Z); auto. Qed.

(** The split of two code columns of the same length [n >= 2]. *)
Lemma train_test_split_codes sex_code species_code k :
  length species_code = length sex_code ->
  2 <= length sex_code ->
  let n := length sex_code in
  sklearn.train_test_split (feature_table sex_code) (IntS species_code)
                           (3 # 10) (Some 42%Z) k
  = (k, Ok (feature_table (select sex_code (train_rows n)),
            feature_table (select sex_code (test_rows n)),
            IntS (select species_code (train_rows n)),
            IntS (select species_code (test_rows n)))).
Proof.
  intros Hlen Hn n.
  destruct (rows_in_range n Hn) as (Htr & Hte).
  unfold sklearn.train_test_split.
  cbn [pandas.len feature_table Series_.len].
  rewrite Hlen, Nat.eqb_refl; cbn [negb].
  rewrite validate_shuffle_split_0_3.
  destruct (Nat.ltb_spec (length sex_code) 2) as [Hlt|_]; [lia|].
  rewrite bind_lift_Ok; cbv beta iota.
  unfold bind at 1, sklearn.rng_permutation, sklearn.split_indices.
  unfold train_rows, test_rows, permutation_42, n_test_of, feature_table in *.
  fold n.
  cbn [pandas.iloc Series_.iloc]; unfold Series_.lift_take.
  rewrite !take_select by (rewrite ?Hlen; assumption).
  reflexivity.
Qed.

Lemma codes_length s : length (codes (astype_category s)) = Series_.len s.
Proof. exact (proj1 (astype_category_codes s)). Qed.

Lemma cell_2_without_sex df0 k :
  lookup df0 "sex" = None -> cell_2 df0 k = (k, Raise (KeyError "sex")).
Proof.
  intros Hsex; unfold cell_2, getitem at 1; rewrite Hsex; reflexivity.
Qed.

Lemma cell_2_without_species df0 sex0 k :
  lookup df0 "sex" = Some sex0 -> lookup df0 "species" = None ->
  cell_2 df0 k = (k, Raise (KeyError "species")).
Proof.
  intros Hsex Hsp; unfold cell_2, getitem at 1; rewrite Hsex, bind_lift_Ok.
  unfold getitem at 1; rewrite lookup_setitem_other, Hsp by discriminate.
  reflexivity.
Qed.

(** The statements of cell 2 up to the split, on a table that has both
    columns. *)
Lemma cell_2_to_split df0 sex0 species0 k :
  lookup df0 "sex" = Some sex0 -> lookup df0 "species" = Some species0 ->
  let sex_code := codes (astype_category sex0) in
  let species_code := codes (astype_category species0) in
  cell_2 df0 k =
  bind (sklearn.train_test_split (feature_table sex_code) (IntS species_code)
                                 (3 # 10) (Some 42%Z))
       (fun parts =>
          match parts with
          | (X_train0, X_test0, y_train0, y_test0) =>
            (model0 <- lift (fit X_train0 y_train0) ;;
             y_pred0 <- lift (predict model0 X_test0) ;;
             accuracy0 <- lift (sklearn.accuracy_score y_test0 y_pred0) ;;
             print (PrintFloat "Accuracy: " accuracy0) ;;
             interpret accuracy0 ;;
             ret {| df := setitem (setitem df0 "sex" (IntS sex_code))
                                  "species" (IntS species_code);
                    X := feature_table sex_code;
                    y := IntS species_code;
                    X_train := X_train0; X_test := X_test0;
                    y_train := y_train0; y_test := y_test0;
                    model := model0; y_pred := y_pred0;
                    accuracy := accuracy0 |})%cell
          end) k.
Proof.
  intros Hsex Hsp sex_code species_code.
  unfold cell_2, getitem at 1; rewrite Hsex, bind_lift_Ok.
  unfold getitem at 1; rewrite lookup_setitem_other, Hsp, bind_lift_Ok
    by discriminate.
  cbn [getitem_list]; unfold getitem at 1.
  rewrite lookup_setitem_other, lookup_setitem_same by discriminate.
  cbn [try_bind]; rewrite bind_lift_Ok.
  unfold getitem at 1; rewrite lookup_setitem_same, bind_lift_Ok.
  reflexivity.
Qed.

Lemma cell_2_too_few_rows df0 sex0 species0 k :
  lookup df0 "sex" = Some sex0 -> lookup df0 "species" = Some species0 ->
  Series_.len species0 = Series_.len sex0 ->
  Series_.len sex0 < 2 ->
  cell_2 df0 k = (k, Raise (ValueError "the resulting train set will be empty")).
Proof.
  intros Hsex Hsp Hlen Hn.
  rewrite (cell_2_to_split _ _ _ _ Hsex Hsp).
  unfold bind at 1, sklearn.train_test_split.
  cbn [pandas.len feature_table Series_.len].
  rewrite !codes_length, Hlen, Nat.eqb_refl; cbn [negb].
  rewrite validate_shuffle_split_0_3.
  destruct (Nat.ltb_spec (Series_.len sex0) 2) as [_|Hge]; [|lia].
  reflexivity.
Qed.

Lemma cell_2_ragged df0 sex0 species0 k :
  lookup df0 "sex" = Some sex0 -> lookup df0 "species" = Some species0 ->
  Series_.len species0 <> Series_.len sex0 ->
  cell_2 df0 k
  = (k, Raise (ValueError "Found input variables with inconsistent numbers of samples")).
Proof.
  intros Hsex Hsp Hlen.
  rewrite (cell_2_to_split _ _ _ _ Hsex Hsp).
  unfold bind at 1, sklearn.train_test_split.
  cbn [pandas.len feature_table Series_.len].
  rewrite !codes_length.
  destruct (Nat.eqb_spec (Series_.len sex0) (Series_.len species0)); [congruence|].
  reflexivity.
Qed.

(** Cell 2 on a table with both columns, of the same length, at least
    two rows long: what remains open is what the classifier and the
    scorer answer. *)
Lemma cell_2_from_table df0 sex0 species0 k :
  lookup df0 "sex" = Some sex0 -> lookup df0 "species" = Some species0 ->
  Series_.len species0 = Series_.len sex0 ->
  2 <= Series_.len sex0 ->
  let n := Series_.len sex0 in
  let sex_code := codes (astype_category sex0) in
  let species_code := codes (astype_category species0) in
  let X_train0 := feature_table (select sex_code (train_rows n)) in
  let X_test0 := feature_table (select sex_code (test_rows n)) in
  let y_train0 := IntS (select species_code (train_rows n)) in
  let y_test0 := IntS (select species_code (test_rows n)) in
  cell_2 df0 k =
  match fit X_train0 y_train0 with
  | Raise e => (k, Raise e)
  | Ok model0 =>
    match predict model0 X_test0 with
    | Raise e => (k, Raise e)
    | Ok y_pred0 =>
      match sklearn.accuracy_score y_test0 y_pred0 with
      | Raise e => (k, Raise e)
      | Ok accuracy0 =>
        ({| stdout := stdout k ++
              [PrintFloat "Accuracy: " accuracy0;
               PrintLine (if Float64.gt accuracy0 Float64.lit_0_5
                          then has_power else no_power)];
            np_random := np_random k |},
         Ok {| df := setitem (setitem df0 "sex" (IntS sex_code))
                             "species" (IntS species_code);
               X := feature_table sex_code;
               y := IntS species_code;
               X_train := X_train0; X_test := X_test0;
               y_train := y_train0; y_test := y_test0;
               model := model0; y_pred := y_pred0;
               accuracy := accuracy0 |})
      end
    end
  end.
Proof.
  intros Hsex Hsp Hlen Hn n sex_code species_code X_train0 X_test0 y_train0 y_test0.
  rewrite (cell_2_to_split _ _ _ _ Hsex Hsp).
  fold sex_code species_code.
  assert (Hls : length sex_code = n) by apply codes_length.
  assert (Hlp : length species_code = length sex_code)
    by (unfold species_code; rewrite codes_length, Hls; exact Hlen).
  unfold bind at 1.
  rewrite (train_test_split_codes sex_code species_code k Hlp) by lia.
  cbv zeta; rewrite Hls.
  fold X_train0 X_test0 y_train0 y_test0.
  destruct (fit X_train0 y_train0) as [model0|e]; [|reflexivity].
  rewrite bind_lift_Ok.
  destruct (predict model0 X_test0) as [y_pred0|e]; [|reflexivity].
  rewrite bind_lift_Ok.
  destruct (sklearn.accuracy_score y_test0 y_pred0) as [accuracy0|e]; [|reflexivity].
  rewrite bind_lift_Ok, bind_print.
  unfold interpret.
  destruct (Float64.gt accuracy0 Float64.lit_0_5);
    rewrite bind_print; unfold ret; cbn [stdout np_random];
    rewrite <- app_assoc; reflexivity.
Qed.

End Forwards.

(** ** Errors of cell 2 *)

Section Errors.
Context `{Libraries}.

(** X1.  When the loaded table has no [sex] column, the run prints the
    table and then ends with [KeyError('sex')]. *)
Theorem X1_missing_sex_column fs k df0 :
  read_csv fs csv_path = Ok df0 ->
  lookup df0 "sex" = None ->
  notebook fs k = (table_printed k df0, Raise (KeyError "sex")).
Proof.
  intros Hread Hsex.
  rewrite (notebook_after_read _ _ _ Hread).
  now apply cell_2_without_sex.
Qed.

(** X2.  When the loaded table has a [sex] column but no [species]
    column, the run prints the table and then ends with
    [KeyError('species')]. *)
Theorem X2_missing_species_column fs k df0 sex0 :
  read_csv fs csv_path = Ok df0 ->
  lookup df0 "sex" = Some sex0 ->
  lookup df0 "species" = None ->
  notebook fs k = (table_printed k df0, Raise (KeyError "species")).
Proof.
  intros Hread Hsex Hsp.
  rewrite (notebook_after_read _ _ _ Hread).
  now apply cell_2_without_species with sex0.
Qed.

(** X3.  A table with both columns but fewer than two rows cannot be
    split: the run prints the table and ends with the [ValueError] of an
    empty training set, before anything is fitted. *)
Theorem X3_too_few_rows fs k df0 sex0 species0 :
  read_csv fs csv_path = Ok df0 ->
  rectangular df0 ->
  lookup df0 "sex" = Some sex0 ->
  lookup df0 "species" = Some species0 ->
  pandas.len df0 < 2 ->
  notebook fs k
  = (table_printed k df0,
     Raise (ValueError "the resulting train set will be empty")).
Proof.
  intros Hread Hrect Hsex Hsp Hn.
  rewrite (notebook_after_read _ _ _ Hread).
  apply cell_2_too_few_rows with sex0 species0; auto.
  - rewrite (rectangular_lookup _ _ _ Hrect Hsex).
    exact (rectangular_lookup _ _ _ Hrect Hsp).
  - now rewrite (rectangular_lookup _ _ _ Hrect Hsex).
Qed.

(** X4.  On a table with both columns and at least two rows, the run
    reaches the end as soon as the classifier can be fitted on the
    training rows and answers one integer label per test row: it then
    returns that model and those predictions. *)
Theorem X4_run_completes fs k df0 sex0 species0 model0 pred :
  read_csv fs csv_path = Ok df0 ->
  rectangular df0 ->
  lookup df0 "sex" = Some sex0 ->
  lookup df0 "species" = Some species0 ->
  2 <= pandas.len df0 ->
  let n := pandas.len df0 in
  let sex_code := codes (astype_category sex0) in
  let species_code := codes (astype_category species0) in
  fit (feature_table (select sex_code (train_rows n)))
      (IntS (select species_code (train_rows n))) = Ok model0 ->
  predict model0 (feature_table (select sex_code (test_rows n))) = Ok (IntS pred) ->
  length pred = n_test_of n ->
  exists k' ns,
    notebook fs k = (k', Ok ns) /\
    model ns = model0 /\
    y_pred ns = IntS pred /\
    y_test ns = IntS (select species_code (test_rows n)).
Proof.
  intros Hread Hrect Hsex Hsp Hn n sex_code species_code Hfit Hpred Hlen.
  assert (Hls : Series_.len sex0 = n) by exact (rectangular_lookup _ _ _ Hrect Hsex).
  assert (Hlp : Series_.len species0 = Series_.len sex0)
    by (rewrite Hls; exact (rectangular_lookup _ _ _ Hrect Hsp)).
  rewrite (notebook_after_read _ _ _ Hread).
  rewrite (cell_2_from_table _ _ _ _ Hsex Hsp Hlp) by lia.
  cbv zeta; rewrite Hls.
  fold sex_code species_code; rewrite Hfit, Hpred.
  assert (Hscore : exists acc,
            sklearn.accuracy_score (IntS (select species_code (test_rows n)))
                                   (IntS pred) = Ok acc).
  { unfold sklearn.accuracy_score; cbn [Series_.len sklearn.eq_elementwise].
    unfold select at 1; rewrite length_map.
    assert (Hte : length (test_rows n) = n_test_of n).
    { assert (H1 := Nat.div_mod (3 * n + 9) 10 ltac:(lia)).
      assert (H2 := Nat.mod_upper_bound (3 * n + 9) 10 ltac:(lia)).
      unfold test_rows; rewrite length_firstn, permutation_42_length.
      unfold n_test_of; lia. }
    rewrite Hte, Hlen, Nat.eqb_refl; cbn [negb]; eauto. }
  destruct Hscore as (acc & ->).
  do 2 eexists; split; [reflexivity|]; cbn [model y_pred y_test]; auto.
Qed.

(** X5.  On such a table an exception raised by [fit], or by [predict]
    once fitting has succeeded, ends the run with that exception; the
    table has been printed, no accuracy and no verdict. *)
Theorem X5_classifier_errors_propagate fs k df0 sex0 species0 e :
  read_csv fs csv_path = Ok df0 ->
  rectangular df0 ->
  lookup df0 "sex" = Some sex0 ->
  lookup df0 "species" = Some species0 ->
  2 <= pandas.len df0 ->
  let n := pandas.len df0 in
  let sex_code := codes (astype_category sex0) in
  let species_code := codes (astype_category species0) in
  let X_train0 := feature_table (select sex_code (train_rows n)) in
  let y_train0 := IntS (select species_code (train_rows n)) in
  let X_test0 := feature_table (select sex_code (test_rows n)) in
  (fit X_train0 y_train0 = Raise e \/
   exists model0, fit X_train0 y_train0 = Ok model0 /\
                  predict model0 X_test0 = Raise e) ->
  notebook fs k = (table_printed k df0, Raise e).
Proof.
  intros Hread Hrect Hsex Hsp Hn n sex_code species_code X_train0 y_train0
         X_test0 Hlib.
  assert (Hls : Series_.len sex0 = n) by exact (rectangular_lookup _ _ _ Hrect Hsex).
  assert (Hlp : Series_.len species0 = Series_.len sex0)
    by (rewrite Hls; exact (rectangular_lookup _ _ _ Hrect Hsp)).
  rewrite (notebook_after_read _ _ _ Hread).
  rewrite (cell_2_from_table _ _ _ _ Hsex Hsp Hlp) by lia.
  cbv zeta; rewrite Hls.
  fold sex_code species_code; fold X_train0 y_train0 X_test0.
  destruct Hlib as [-> | (model0 & -> & ->)]; reflexivity.
Qed.

End Errors.

(** ** How a run can end *)

Section Outcomes.
Context `{Libraries}.

(** Cell 2 either raises having printed nothing, or completes having
    printed the accuracy and one verdict. *)
Lemma cell_2_outcome df0 k :
  (exists e, cell_2 df0 k = (k, Raise e)) \/
  (exists acc ns,
     cell_2 df0 k =
     ({| stdout := stdout k ++
           [PrintFloat "Accuracy: " acc;
            PrintLine (if Float64.gt acc Float64.lit_0_5
                       then has_power else no_power)];
         np_random := np_random k |}, Ok ns) /\
     accuracy ns = acc).
Proof.
  destruct (lookup df0 "sex") as [sex0|] eqn:Hsex;
    [|left; eexists; now apply cell_2_without_sex].
  destruct (lookup df0 "species") as [species0|] eqn:Hsp;
    [|left; eexists; now apply cell_2_without_species with sex0].
  destruct (Nat.eq_dec (Series_.len species0) (Series_.len sex0)) as [Hlen|Hlen];
    [|left; eexists; now apply cell_2_ragged with sex0 species0].
  destruct (Nat.lt_ge_cases (Series_.len sex0) 2) as [Hn|Hn];
    [left; eexists; now apply cell_2_too_few_rows with sex0 species0|].
  rewrite (cell_2_from_table _ _ _ _ Hsex Hsp Hlen Hn); cbv zeta.
  destruct (fit _ _) as [model0|e]; [|left; eauto].
  destruct (predict _ _) as [y_pred0|e]; [|left; eauto].
  destruct (sklearn.accuracy_score _ _) as [accuracy0|e]; [|left; eauto].
  right; do 2 eexists; split; reflexivity.
Qed.

(** Cell 2 looks at the [sex] and the [species] column of the table and
    at nothing else. *)
Lemma cell_2_reads_two_columns df1 df2 k1 k2 :
  lookup df1 "sex" = lookup df2 "sex" ->
  lookup df1 "species" = lookup df2 "species" ->
  same_outcome (snd (cell_2 df1 k1)) (snd (cell_2 df2 k2)).
Proof.
  intros Esex Esp.
  destruct (lookup df2 "sex") as [sex0|] eqn:Hsex.
  2:{ rewrite (cell_2_without_sex df1 k1 Esex), (cell_2_without_sex df2 k2 Hsex).
      reflexivity. }
  destruct (lookup df2 "species") as [species0|] eqn:Hsp.
  2:{ rewrite (cell_2_without_species df1 sex0 k1 Esex Esp),
              (cell_2_without_species df2 sex0 k2 Hsex Hsp).
      reflexivity. }
  destruct (Nat.eq_dec (Series_.len species0) (Series_.len sex0)) as [Hlen|Hlen].
  2:{ rewrite (cell_2_ragged df1 sex0 species0 k1 Esex Esp Hlen),
              (cell_2_ragged df2 sex0 species0 k2 Hsex Hsp Hlen).
      reflexivity. }
  destruct (Nat.lt_ge_cases (Series_.len sex0) 2) as [Hn|Hn].
  { rewrite (cell_2_too_few_rows df1 sex0 species0 k1 Esex Esp Hlen Hn),
            (cell_2_too_few_rows df2 sex0 species0 k2 Hsex Hsp Hlen Hn).
    reflexivity. }
  rewrite (cell_2_from_table df1 _ _ k1 Esex Esp Hlen Hn),
          (cell_2_from_table df2 _ _ k2 Hsex Hsp Hlen Hn); cbv zeta.
  destruct (fit _ _) as [model0|e]; [|reflexivity].
  destruct (predict _ _) as [y_pred0|e]; [|reflexivity].
  destruct (sklearn.accuracy_score _ _) as [accuracy0|e]; [|reflexivity].
  cbn [snd same_outcome X y X_train X_test y_train y_test model y_pred accuracy].
  repeat split.
Qed.

(** X6.  A run that ends with an exception has printed either nothing or
    the table and nothing more: an accuracy is never printed without its
    verdict, and neither is printed by a run that fails. *)
Theorem X6_failing_run_output fs k k' e :
  notebook fs k = (k', Raise e) ->
  k' = k \/
  exists df0, read_csv fs csv_path = Ok df0 /\ k' = table_printed k df0.
Proof.
  intros Hrun.
  destruct (read_csv fs csv_path) as [df0|e0] eqn:Hread.
  - right; exists df0; split; [reflexivity|].
    rewrite (notebook_after_read _ _ _ Hread) in Hrun.
    destruct (cell_2_outcome df0 (table_printed k df0)) as [(e1 & He)|(acc & ns & He & _)];
      rewrite He in Hrun; [|discriminate].
    now injection Hrun as <- _.
  - left.
    unfold notebook, cell_1, bind at 1 2, lift in Hrun.
    rewrite Hread in Hrun; now injection Hrun as <- _.
Qed.

(** X7.  No run, completed or failed, advances or reseeds numpy's global
    generator: the split draws from a generator of its own. *)
Theorem X7_global_generator_untouched fs k :
  np_random (fst (notebook fs k)) = np_random k.
Proof.
  destruct (obl_notebook fs) as (out & r & Hobl).
  now rewrite Hobl.
Qed.

(** X8.  The outcome of a run depends on the loaded table through its
    [sex] and [species] columns only: two files whose tables agree on
    these two columns, whatever their other columns, lead to the same
    exception or to the same features, targets, partitions, model,
    predictions and accuracy. *)
Theorem X8_only_two_columns_matter fs1 fs2 k1 k2 df1 df2 :
  read_csv fs1 csv_path = Ok df1 ->
  read_csv fs2 csv_path = Ok df2 ->
  lookup df1 "sex" = lookup df2 "sex" ->
  lookup df1 "species" = lookup df2 "species" ->
  same_outcome (snd (notebook fs1 k1)) (snd (notebook fs2 k2)).
Proof.
  intros Hread1 Hread2 Esex Esp.
  rewrite (notebook_after_read _ _ _ Hread1), (notebook_after_read _ _ _ Hread2).
  now apply cell_2_reads_two_columns.
Qed.

End Outcomes.

(** ** The codes are the numbers below the number of categories *)

Section DenseCodes.
Context {A : Type} (eqb leb : A -> A -> bool).
Hypothesis eqb_sym : forall x y, eqb x y = eqb y x.

Local Abbreviation differ := (fun a b : A => eqb a b = false).

Lemma ForallOrdPairs_filter (R : A -> A -> Prop) f l :
  ForallOrdPairs R l -> ForallOrdPairs R (filter f l).
Proof.
  induction 1 as [|a l Ha Hl IH]; simpl; [constructor|].
  destruct (f a); [constructor|]; auto.
  apply Forall_forall; intros y Hy; apply filter_In in Hy as [Hy _].
  exact (proj1 (Forall_forall _ _) Ha y Hy).
Qed.

Lemma unique_differ l : ForallOrdPairs differ (unique eqb l).
Proof.
  induction l as [|x rest IH]; simpl; constructor.
  - apply Forall_forall; intros y Hy; apply filter_In in Hy as [_ Hy].
    cbv beta; now destruct (eqb x y).
  - now apply ForallOrdPairs_filter.
Qed.

Lemma unique_incl l x : In x (unique eqb l) -> In x l.
Proof.
  revert x; induction l as [|a rest IH]; simpl; intros x; [tauto|].
  intros [->|Hx]; [auto|].
  apply filter_In in Hx as [Hx _]; auto.
Qed.

Lemma unique_length l : length (unique eqb l) <= length l.
Proof.
  induction l as [|a rest IH]; simpl; [lia|].
  assert (Hf := filter_length_le (fun y => negb (eqb a y)) (unique eqb rest)).
  lia.
Qed.

Lemma dropna_length (l : list (option A)) : length (dropna l) <= length l.
Proof. induction l as [|[a|] rest IH]; simpl; lia. Qed.

Lemma insert_sorted_differ x l :
  Forall (differ x) l -> ForallOrdPairs differ l ->
  ForallOrdPairs differ (insert_sorted leb x l).
Proof.
  intros Hx Hl; induction Hl as [|a l Ha Hl IH]; simpl.
  - constructor; [constructor | constructor].
  - destruct (leb x a).
    + constructor; [assumption | constructor; assumption].
    + inversion Hx as [|? ? Hxa Hxl]; subst.
      constructor; [|auto].
      apply Forall_forall; intros y Hy.
      apply (Permutation_in _ (insert_sorted_perm leb x l)) in Hy.
      destruct Hy as [<-|Hy].
      * cbv beta in *; now rewrite eqb_sym.
      * exact (proj1 (Forall_forall _ _) Ha y Hy).
Qed.

Lemma sort_values_differ l :
  ForallOrdPairs differ l -> ForallOrdPairs differ (sort_values leb l).
Proof.
  induction 1 as [|a l Ha Hl IH]; simpl; [constructor|].
  apply insert_sorted_differ; [|assumption].
  apply Forall_forall; intros y Hy.
  apply (Permutation_in _ (sort_values_perm leb l)) in Hy.
  exact (proj1 (Forall_forall _ _) Ha y Hy).
Qed.

Lemma factor_categories_differ l :
  ForallOrdPairs differ (factor_categories eqb leb l).
Proof. apply sort_values_differ, unique_differ. Qed.

Lemma factor_categories_incl l c :
  In c (factor_categories eqb leb l) -> In (Some c) l.
Proof.
  intros Hc; apply (in_dropna leb), unique_incl.
  exact (Permutation_in _ (sort_values_perm leb _) Hc).
Qed.

Lemma factor_categories_length l :
  length (factor_categories eqb leb l) <= length l.
Proof.
  unfold factor_categories.
  rewrite (Permutation_length (sort_values_perm leb _)).
  assert (H1 := unique_length (dropna l)).
  assert (H2 := dropna_length l); lia.
Qed.

(** In a list of pairwise different values, a value is found where it
    stands. *)
Lemma get_loc_at cats p c :
  ForallOrdPairs differ cats -> nth_error cats p = Some c ->
  eqb c c = true -> get_loc eqb cats c = Some p.
Proof.
  intros Hd; revert p; induction Hd as [|a l Ha Hl IH]; intros p Hp Hcc.
  - destruct p; discriminate.
  - destruct p as [|p]; simpl in *.
    + injection Hp as ->; now rewrite Hcc.
    + assert (Hac : differ a c)
        by exact (proj1 (Forall_forall _ _) Ha c (nth_error_In _ _ Hp)).
      cbv beta in Hac; rewrite eqb_sym, Hac.
      now rewrite (IH p Hp Hcc).
Qed.

Lemma get_loc_bound cats x i :
  get_loc eqb cats x = Some i -> i < length cats.
Proof.
  intros Hi; destruct (get_loc_nth eqb cats x i Hi) as (c & Hc & _).
  apply nth_error_Some; congruence.
Qed.

Lemma factor_codes_dense l :
  (forall x, In (Some x) l -> eqb x x = true) ->
  dense_codes (length (factor_categories eqb leb l)) (factor_codes eqb leb l).
Proof.
  intros Hrefl; set (cats := factor_categories eqb leb l); split.
  - intros c Hc; unfold factor_codes in Hc.
    apply in_map_iff in Hc as (v & <- & _).
    destruct v as [x|]; cbn [code_of]; [|lia].
    change (factor_categories eqb leb l) with cats.
    destruct (get_loc eqb cats x) as [i|] eqn:Hi; [|lia].
    apply get_loc_bound in Hi; lia.
  - intros j Hj.
    destruct (nth_error cats j) as [c|] eqn:Hc;
      [|apply nth_error_None in Hc; lia].
    assert (Hin : In (Some c) l)
      by (apply factor_categories_incl; exact (nth_error_In _ _ Hc)).
    assert (Hcode : code_of eqb cats (Some c) = Z.of_nat j).
    { cbn [code_of]; rewrite (get_loc_at cats j c); auto.
      apply factor_categories_differ. }
    rewrite <- Hcode; unfold factor_codes; fold cats.
    now apply in_map.
Qed.

End DenseCodes.

Lemma astype_category_dense s :
  dense_codes (n_categories s) (codes (astype_category s)) /\
  n_categories s <= Series_.len s.
Proof.
  unfold n_categories; destruct s as [v|v|v|v];
    cbn [astype_category categories codes Series_.len];
    rewrite ?length_map.
  - split; [apply factor_codes_dense | apply factor_categories_length].
    + apply String.eqb_sym.
    + intros; apply String.eqb_refl.
  - split; [apply factor_codes_dense|].
    + apply SFeqb_sym.
    + intros x Hx; apply in_map_iff in Hx as (f & Hf & _).
      unfold notna in Hf; destruct (Float64.isnan f) eqn:E; [discriminate|].
      injection Hf as <-; now apply SFeqb_refl.
    + rewrite <- (length_map notna v); apply factor_categories_length.
  - split; [apply factor_codes_dense|].
    + apply Z.eqb_sym.
    + intros; apply Z.eqb_refl.
    + rewrite <- (length_map Some v); apply factor_categories_length.
  - split; [apply factor_codes_dense|].
    + intros [] []; reflexivity.
    + intros; apply Bool.eqb_reflx.
    + rewrite <- (length_map Some v); apply factor_categories_length.
Qed.

Section Dense.
Context `{Libraries}.

(** X9.  In a completed run the sex codes and the species codes are
    dense: with [k] distinct values in the loaded column, every code is
    between -1 and [k - 1], each of 0, ..., [k - 1] is the code of some
    row, and [k] is at most the number of rows. *)
Theorem X9_codes_are_dense fs k k' ns :
  notebook fs k = (k', Ok ns) ->
  exists df0 sex0 species0 sex_code species_code,
    read_csv fs csv_path = Ok df0 /\
    lookup df0 "sex" = Some sex0 /\
    lookup df0 "species" = Some species0 /\
    X ns = feature_table sex_code /\
    y ns = IntS species_code /\
    dense_codes (n_categories sex0) sex_code /\
    dense_codes (n_categories species0) species_code /\
    n_categories sex0 <= Series_.len sex0 /\
    n_categories species0 <= Series_.len species0.
Proof.
  intros Hrun.
  destruct (notebook_completed _ _ _ _ Hrun)
    as (df0 & sex0 & species0 & n_train & n_test & Hc).
  cbv zeta in Hc.
  destruct Hc as (Hread & Hsex & Hsp & _ & _ & HX & Hy & _).
  destruct (astype_category_dense sex0) as [Hd1 Hk1].
  destruct (astype_category_dense species0) as [Hd2 Hk2].
  exists df0, sex0, species0,
    (codes (astype_category sex0)), (codes (astype_category species0)).
  exact (conj Hread (conj Hsex (conj Hsp (conj HX (conj Hy
    (conj Hd1 (conj Hd2 (conj Hk1 Hk2)))))))).
Qed.

End Dense.

(** ** The codes follow the sorted order of the values *)

Lemma ForallOrdPairs_nth {A} (R : A -> A -> Prop) l p q a b :
  ForallOrdPairs R l -> p < q ->
  nth_error l p = Some a -> nth_error l q = Some b -> R a b.
Proof.
  intros Hl; revert p q; induction Hl as [|x l Hx Hl IH]; intros p q Hpq Hp Hq.
  - destruct p; discriminate.
  - destruct q as [|q]; [lia|]; simpl in Hq.
    destruct p as [|p]; simpl in Hp.
    + injection Hp as ->.
      exact (proj1 (Forall_forall _ _) Hx b (nth_error_In _ _ Hq)).
    + apply (IH p q); auto; lia.
Qed.

Section SortedCategories.
Context {A : Type} (leb : A -> A -> bool).
Hypothesis leb_total : forall x y, leb x y = true \/ leb y x = true.
Hypothesis leb_trans :
  forall x y z, leb x y = true -> leb y z = true -> leb x z = true.

Local Abbreviation le := (fun a b : A => leb a b = true).

Lemma insert_sorted_sorted x l :
  ForallOrdPairs le l -> ForallOrdPairs le (insert_sorted leb x l).
Proof.
  induction 1 as [|a l Ha Hl IH]; simpl.
  - constructor; constructor.
  - destruct (leb x a) eqn:Hxa.
    + constructor; [|constructor; assumption].
      constructor; [exact Hxa|].
      apply Forall_forall; intros y Hy.
      apply leb_trans with a; [exact Hxa|].
      exact (proj1 (Forall_forall _ _) Ha y Hy).
    + constructor; [|exact IH].
      apply Forall_forall; intros y Hy.
      apply (Permutation_in _ (insert_sorted_perm leb x l)) in Hy.
      destruct Hy as [<-|Hy].
      * destruct (leb_total x a) as [Hle|Hle]; [congruence | exact Hle].
      * exact (proj1 (Forall_forall _ _) Ha y Hy).
Qed.

Lemma sort_values_sorted l : ForallOrdPairs le (sort_values leb l).
Proof.
  induction l as [|x rest IH]; simpl; [constructor|].
  now apply insert_sorted_sorted.
Qed.

End SortedCategories.

Lemma string_compare_refl s : String.compare s s = Eq.
Proof.
  assert (H := String.compare_antisym s s).
  destruct (String.compare s s); simpl in H; congruence.
Qed.

Lemma string_leb_trans s t u :
  String.leb s t = true -> String.leb t u = true -> String.leb s u = true.
Proof.
  unfold String.leb.
  assert (Hgen : forall s t u,
            String.compare s t <> Gt -> String.compare t u <> Gt ->
            String.compare s u <> Gt).
  { clear; induction s as [|a s IH]; intros [|b t] [|c u]; simpl;
      try congruence.
    unfold Ascii.compare.
    destruct (N.compare_spec (N_of_ascii a) (N_of_ascii b)) as [Eab|Lab|Gab];
      try congruence;
      destruct (N.compare_spec (N_of_ascii b) (N_of_ascii c)) as [Ebc|Lbc|Gbc];
      try congruence; intros Hst Htu.
    - rewrite Eab, Ebc, N.compare_refl; eauto.
    - rewrite Eab, (proj2 (N.compare_lt_iff _ _) Lbc); congruence.
    - rewrite <- Ebc, (proj2 (N.compare_lt_iff _ _) Lab); congruence.
    - rewrite (proj2 (N.compare_lt_iff _ _) (N.lt_trans _ _ _ Lab Lbc)).
      congruence. }
  intros Hst Htu.
  specialize (Hgen s t u).
  destruct (String.compare s t), (String.compare t u), (String.compare s u);
    try reflexivity; try discriminate; exfalso; apply Hgen; congruence.
Qed.

Lemma text_codes_ordered v :
  ordered_codes v (factor_codes String.eqb String.leb v).
Proof.
  intros i j s t Hi Hj.
  set (cats := factor_categories String.eqb String.leb v).
  assert (Hsorted : ForallOrdPairs (fun a b => String.leb a b = true) cats)
    by (apply sort_values_sorted;
        [apply String.leb_total | apply string_leb_trans]).
  assert (Hdiff : ForallOrdPairs (fun a b => String.eqb a b = false) cats)
    by (apply factor_categories_differ, String.eqb_sym).
  assert (Hloc : forall k x, nth_error v k = Some (Some x) ->
            exists p, nth k (factor_codes String.eqb String.leb v) 0%Z = Z.of_nat p /\
                      nth_error cats p = Some x).
  { intros k x Hk.
    rewrite (factor_codes_nth String.eqb String.leb v k (Some x) Hk).
    cbn [code_of]; fold cats.
    assert (Hpos := proj1 (code_of_present String.eqb String.leb String.eqb_sym
      (fun a b c Hab Hbc => proj2 (String.eqb_eq a c)
         (eq_trans (proj1 (String.eqb_eq a b) Hab) (proj1 (String.eqb_eq b c) Hbc)))
      v x x (nth_error_In _ _ Hk) (nth_error_In _ _ Hk)
      (String.eqb_refl x) (String.eqb_refl x))).
    cbn [code_of] in Hpos; fold cats in Hpos.
    destruct (get_loc String.eqb cats x) as [p|] eqn:Hp; [|lia].
    exists p; split; [reflexivity|].
    destruct (get_loc_nth _ _ _ _ Hp) as (c & Hc & Hxc).
    apply String.eqb_eq in Hxc; congruence. }
  destruct (Hloc i s Hi) as (p & -> & Hp), (Hloc j t Hj) as (q & -> & Hq).
  unfold String.ltb; split.
  - intros Hpq; assert (Hlt : p < q) by lia.
    assert (Hle := ForallOrdPairs_nth _ _ _ _ _ _ Hsorted Hlt Hp Hq).
    assert (Hne := ForallOrdPairs_nth _ _ _ _ _ _ Hdiff Hlt Hp Hq).
    cbv beta in Hle, Hne; unfold String.leb in Hle.
    apply String.eqb_neq in Hne.
    destruct (String.compare s t) eqn:Hcmp; try reflexivity; try discriminate.
    apply String.compare_eq_iff in Hcmp; contradiction.
  - intros Hlt.
    destruct (String.compare s t) eqn:Hcmp; try discriminate.
    destruct (Nat.lt_trichotomy p q) as [Hpq|[->|Hqp]]; [lia| |].
    + assert (s = t) by congruence; subst t.
      rewrite string_compare_refl in Hcmp; discriminate.
    + assert (Hle := ForallOrdPairs_nth _ _ _ _ _ _ Hsorted Hqp Hq Hp).
      cbv beta in Hle; unfold String.leb in Hle.
      rewrite String.compare_antisym, Hcmp in Hle; discriminate.
Qed.

Section Ordered.
Context `{Libraries}.

(** X10.  When the loaded [sex] (or [species]) column is a text column,
    its codes follow the lexicographic order of the texts: a row gets a
    smaller code than another exactly when its text sorts first. *)
Theorem X10_codes_follow_text_order fs k k' ns :
  notebook fs k = (k', Ok ns) ->
  exists df0,
    read_csv fs csv_path = Ok df0 /\
    (forall v, lookup df0 "sex" = Some (ObjectS v) ->
       exists sex_code, X ns = feature_table sex_code /\ ordered_codes v sex_code) /\
    (forall v, lookup df0 "species" = Some (ObjectS v) ->
       exists species_code,
         y ns = IntS species_code /\ ordered_codes v species_code).
Proof.
  intros Hrun.
  destruct (notebook_completed _ _ _ _ Hrun)
    as (df0 & sex0 & species0 & n_train & n_test & Hc).
  cbv zeta in Hc.
  destruct Hc as (Hread & Hsex & Hsp & _ & _ & HX & Hy & _).
  exists df0; split; [exact Hread|]; split; intros v Hv.
  - assert (sex0 = ObjectS v) by congruence; subst sex0.
    eexists; split; [exact HX | apply text_codes_ordered].
  - assert (species0 = ObjectS v) by congruence; subst species0.
    eexists; split; [exact Hy | apply text_codes_ordered].
Qed.

End Ordered.

(** ** Coding a column of codes again *)

Lemma strictly_sorted_ext (l1 l2 : list Z) :
  ForallOrdPairs Z.lt l1 -> ForallOrdPairs Z.lt l2 ->
  (forall c, In c l1 <-> In c l2) -> l1 = l2.
Proof.
  intros H1; revert l2; induction H1 as [|a r1 Ha Hr1 IH]; intros l2 H2 Hext.
  - destruct l2 as [|b r2]; [reflexivity|].
    exfalso; apply (proj2 (Hext b)); left; reflexivity.
  - destruct H2 as [|b r2 Hb Hr2].
    + exfalso; apply (proj1 (Hext a)); left; reflexivity.
    + assert (Hab : a = b).
      { destruct (proj1 (Hext a) (or_introl eq_refl)) as [E|Ha2]; [auto|].
        destruct (proj2 (Hext b) (or_introl eq_refl)) as [E|Hb1]; [auto|].
        assert (b < a)%Z by exact (proj1 (Forall_forall _ _) Hb a Ha2).
        assert (a < b)%Z by exact (proj1 (Forall_forall _ _) Ha b Hb1).
        lia. }
      subst b; f_equal; apply IH; [assumption|].
      intros c; split; intros Hc.
      * destruct (proj1 (Hext c) (or_intror Hc)) as [E|Hc2]; [|assumption].
        assert (a < c)%Z by exact (proj1 (Forall_forall _ _) Ha c Hc); lia.
      * destruct (proj2 (Hext c) (or_intror Hc)) as [E|Hc1]; [|assumption].
        assert (a < c)%Z by exact (proj1 (Forall_forall _ _) Hb c Hc); lia.
Qed.

Lemma ForallOrdPairs_and {A} (R S T : A -> A -> Prop) l :
  (forall a b, R a b -> S a b -> T a b) ->
  ForallOrdPairs R l -> ForallOrdPairs S l -> ForallOrdPairs T l.
Proof.
  intros Himp HR; induction HR as [|a l Ha Hl IH]; intros HS; [constructor|].
  inversion HS as [|? ? Sa Sl]; subst.
  constructor; [|auto].
  apply Forall_forall; intros y Hy.
  apply Himp; [exact (proj1 (Forall_forall _ _) Ha y Hy)
              | exact (proj1 (Forall_forall _ _) Sa y Hy)].
Qed.

Lemma iota_sorted k start :
  ForallOrdPairs Z.lt (map Z.of_nat (seq start k)).
Proof.
  revert start; induction k as [|k IH]; intros start; simpl; constructor.
  - apply Forall_forall; intros c Hc.
    apply in_map_iff in Hc as (j & <- & Hj); apply in_seq in Hj; lia.
  - apply IH.
Qed.

Lemma int_categories_of_dense k cs :
  dense_codes k cs -> (forall c, In c cs -> (0 <= c)%Z) ->
  factor_categories Z.eqb Z.leb (map Some cs) = map Z.of_nat (seq 0 k).
Proof.
  intros [Hrange Hsurj] Hpos.
  set (cats := factor_categories Z.eqb Z.leb (map Some cs)).
  assert (Hin : forall c, In c cats <-> In c cs).
  { intros c; split; intros Hc.
    - apply (factor_categories_incl Z.eqb Z.leb) in Hc.
      apply in_map_iff in Hc as (c' & [= ->] & Hc'); exact Hc'.
    - assert (Hsome : In (Some c) (map Some cs)) by now apply in_map.
      assert (Hcode := proj1 (code_of_present Z.eqb Z.leb Z.eqb_sym
        (fun x y z Hxy Hyz => proj2 (Z.eqb_eq x z)
           (eq_trans (proj1 (Z.eqb_eq x y) Hxy) (proj1 (Z.eqb_eq y z) Hyz)))
        (map Some cs) c c Hsome Hsome (Z.eqb_refl c) (Z.eqb_refl c))).
      cbn [code_of] in Hcode; fold cats in Hcode.
      destruct (get_loc Z.eqb cats c) as [p|] eqn:Hp; [|lia].
      destruct (get_loc_nth _ _ _ _ Hp) as (c' & Hc' & Hcc).
      apply Z.eqb_eq in Hcc; subst c'.
      exact (nth_error_In _ _ Hc'). }
  apply strictly_sorted_ext.
  - apply ForallOrdPairs_and with
      (R := fun a b => Z.leb a b = true) (S := fun a b => Z.eqb a b = false).
    + intros a b Hle Hne; apply Z.leb_le in Hle; apply Z.eqb_neq in Hne; lia.
    + apply sort_values_sorted.
      * intros x y; rewrite !Z.leb_le; lia.
      * intros x y z; rewrite !Z.leb_le; lia.
    + apply factor_categories_differ, Z.eqb_sym.
  - apply iota_sorted.
  - intros c; rewrite Hin; split; intros Hc.
    + apply in_map_iff; exists (Z.to_nat c).
      specialize (Hrange c Hc); specialize (Hpos c Hc).
      split; [lia | apply in_seq; lia].
    + apply in_map_iff in Hc as (j & <- & Hj); apply in_seq in Hj.
      apply Hsurj; lia.
Qed.

(** Coding a column of dense codes that holds no -1 gives it back. *)
Lemma int_codes_fixed k cs :
  dense_codes k cs -> ~ In (-1)%Z cs ->
  codes (astype_category (IntS cs)) = cs.
Proof.
  intros Hdense Hnone.
  assert (Hpos : forall c, In c cs -> (0 <= c)%Z).
  { intros c Hc; destruct (Z.eq_dec c (-1)) as [->|Hne]; [contradiction|].
    destruct (proj1 Hdense c Hc); lia. }
  cbn [astype_category codes]; unfold factor_codes.
  rewrite (int_categories_of_dense k cs Hdense Hpos), map_map.
  rewrite <- (map_id cs) at 2; apply map_ext_in; intros c Hc.
  cbn [code_of].
  assert (Hc0 := Hpos c Hc); destruct (proj1 Hdense c Hc) as [_ Hck].
  rewrite (get_loc_at Z.eqb Z.eqb_sym _ (Z.to_nat c) c).
  - lia.
  - apply ForallOrdPairs_and with (R := Z.lt) (S := Z.lt);
      [|apply iota_sorted | apply iota_sorted].
    intros a b Hab _; apply Z.eqb_neq; lia.
  - rewrite nth_error_map, nth_error_seq.
    destruct (Nat.ltb_spec (Z.to_nat c) k); [|lia].
    simpl; f_equal; lia.
  - apply Z.eqb_refl.
Qed.

Lemma setitem_same df key s :
  lookup df key = Some s -> setitem df key s = df.
Proof.
  induction df as [|[name old] rest IH]; simpl; [discriminate|].
  destruct (String.eqb name key) eqn:E.
  - now intros [= ->].
  - intros Hl; now rewrite IH.
Qed.


Section Rerun.
Context `{Libraries}.

(** X11.  Running cell 2 a second time on the table a completed run left
    behind changes nothing when no code is -1, that is when no sex and no
    species was missing: the codes are coded to themselves, the same rows
    are split off, and the cell ends with the very same table, model,
    predictions and accuracy, printing the same two lines. *)
Theorem X11_second_run_of_cell_2 fs k k' ns sex_code species_code k2 :
  notebook fs k = (k', Ok ns) ->
  X ns = feature_table sex_code ->
  y ns = IntS species_code ->
  ~ In (-1)%Z sex_code ->
  ~ In (-1)%Z species_code ->
  cell_2 (df ns) k2 =
  ({| stdout := stdout k2 ++
        [PrintFloat "Accuracy: " (accuracy ns);
         PrintLine (if Float64.gt (accuracy ns) Float64.lit_0_5
                    then has_power else no_power)];
      np_random := np_random k2 |},
   Ok ns).
Proof.
  intros Hrun HXc Hyc Hsexn Hspn.
  destruct (notebook_completed _ _ _ _ Hrun)
    as (df0 & sex0 & species0 & n_train & n_test & Hc).
  cbv zeta in Hc.
  destruct Hc as (Hread & Hsex & Hsp & Hlen & Hdf & HX & Hy & Hval & HXtr &
                  HXte & Hytr & Hyte & Hfit & Hpred & Hacc & _).
  destruct (split_sizes _ _ _ Hval) as (Hn & Hntest & Hsum & _).
  assert (Es : codes (astype_category sex0) = sex_code)
    by (rewrite HX in HXc; unfold feature_table in HXc; congruence).
  assert (Ep : codes (astype_category species0) = species_code) by congruence.
  rewrite Es, Ep in *.
  set (n := Series_.len sex0) in *.
  assert (Hls : length sex_code = n) by (rewrite <- Es; apply codes_length).
  assert (Hlp : length species_code = n)
    by (rewrite <- Ep, codes_length; exact Hlen).
  assert (Hfix1 : codes (astype_category (IntS sex_code)) = sex_code).
  { apply int_codes_fixed with (n_categories sex0); [|assumption].
    rewrite <- Es; apply astype_category_dense. }
  assert (Hfix2 : codes (astype_category (IntS species_code)) = species_code).
  { apply int_codes_fixed with (n_categories species0); [|assumption].
    rewrite <- Ep; apply astype_category_dense. }
  assert (Hl1 : lookup (df ns) "sex" = Some (IntS sex_code))
    by (rewrite Hdf, lookup_setitem_other, lookup_setitem_same by discriminate;
        reflexivity).
  assert (Hl2 : lookup (df ns) "species" = Some (IntS species_code))
    by (rewrite Hdf, lookup_setitem_same; reflexivity).
  rewrite (cell_2_from_table (df ns) (IntS sex_code) (IntS species_code) k2 Hl1 Hl2)
    by (cbn [Series_.len]; lia).
  cbv zeta; cbn [Series_.len]; rewrite Hfix1, Hfix2, Hls.
  assert (Etr : train_rows n = firstn n_train (skipn n_test (permutation_42 n)))
    by (unfold train_rows, n_test_of; rewrite <- Hntest; f_equal; lia).
  assert (Ete : test_rows n = firstn n_test (permutation_42 n))
    by (unfold test_rows, n_test_of; now rewrite <- Hntest).
  unfold feature_table, select; rewrite Etr, Ete.
  rewrite <- HXtr, <- HXte, <- Hytr, <- Hyte, Hfit, Hpred, Hacc.
  rewrite (setitem_same _ _ _ Hl1), (setitem_same _ _ _ Hl2).
  f_equal; f_equal.
  unfold feature_table in HXc; rewrite <- HXc, <- Hyc; destruct ns; reflexivity.
Qed.

End Rerun.

(** ** The size of the printed table *)









Section Printed.
Context `{Libraries}.


End Printed.

(** ** The further properties at work on concrete files *)

Lemma parse_text_rectangular text df0 :
  Fixture.parse_text text = Ok df0 -> rectangular df0.
Proof.
  unfold Fixture.parse_text.
  destruct (map (Fixture.split_on Fixture.comma) _) as [|header rows];
    [discriminate|].
  destruct (forallb _ rows); [|discriminate].
  intros [= <-] name s Hin.
  apply in_map_iff in Hin as (j & [= <- <-] & Hj).
  destruct (length header) as [|m]; [destruct Hj|].
  cbn [seq map pandas.len]; unfold Fixture.column_of.
  cbn [Series_.len]; now rewrite !length_map.
Qed.

Lemma four_penguins_run :
  exists k' ns,
    notebook (Fixture.one_file Fixture.four_penguins) Fixture.fresh_kernel
      = (k', Ok ns).
Proof. do 2 eexists; vm_compute; reflexivity. Defined.

Lemma X1_witness :
  exists df0,
    read_csv (Fixture.one_file Fixture.without_sex) csv_path = Ok df0 /\
    lookup df0 "sex" = None /\
    notebook (Fixture.one_file Fixture.without_sex) Fixture.fresh_kernel
      = (table_printed Fixture.fresh_kernel df0, Raise (KeyError "sex")).
Proof.
  eexists; split; [vm_compute; reflexivity|]; split; [reflexivity|].
  apply X1_missing_sex_column; [vm_compute; reflexivity | reflexivity].
Defined.

Lemma X2_witness :
  exists df0 sex0,
    read_csv (Fixture.one_file Fixture.without_species) csv_path = Ok df0 /\
    lookup df0 "sex" = Some sex0 /\
    lookup df0 "species" = None /\
    notebook (Fixture.one_file Fixture.without_species) Fixture.fresh_kernel
      = (table_printed Fixture.fresh_kernel df0, Raise (KeyError "species")).
Proof.
  do 2 eexists; split; [vm_compute; reflexivity|].
  split; [reflexivity|]; split; [reflexivity|].
  eapply X2_missing_species_column; [vm_compute; reflexivity | reflexivity..].
Defined.

Lemma X3_witness :
  exists df0 sex0 species0,
    read_csv (Fixture.one_file Fixture.one_penguin) csv_path = Ok df0 /\
    rectangular df0 /\
    lookup df0 "sex" = Some sex0 /\
    lookup df0 "species" = Some species0 /\
    pandas.len df0 < 2 /\
    notebook (Fixture.one_file Fixture.one_penguin) Fixture.fresh_kernel
      = (table_printed Fixture.fresh_kernel df0,
         Raise (ValueError "the resulting train set will be empty")).
Proof.
  assert (Hrect : forall df0, Fixture.parse_text Fixture.one_penguin = Ok df0 ->
                              rectangular df0)
    by apply parse_text_rectangular.
  do 3 eexists; split; [vm_compute; reflexivity|].
  split; [apply Hrect; vm_compute; reflexivity|].
  split; [reflexivity|]; split; [reflexivity|].
  split; [cbn; lia|].
  eapply X3_too_few_rows;
    [vm_compute; reflexivity
    | apply Hrect; vm_compute; reflexivity
    | reflexivity | reflexivity | cbn; lia].
Defined.

Lemma X4_witness :
  exists df0 sex0 species0 model0 pred,
    read_csv (Fixture.one_file Fixture.six_penguins) csv_path = Ok df0 /\
    rectangular df0 /\
    lookup df0 "sex" = Some sex0 /\
    lookup df0 "species" = Some species0 /\
    2 <= pandas.len df0 /\
    fit (feature_table (select (codes (astype_category sex0))
                               (train_rows (pandas.len df0))))
        (IntS (select (codes (astype_category species0))
                      (train_rows (pandas.len df0)))) = Ok model0 /\
    predict model0
      (feature_table (select (codes (astype_category sex0))
                             (test_rows (pandas.len df0)))) = Ok (IntS pred) /\
    length pred = n_test_of (pandas.len df0) /\
    exists k' ns,
      notebook (Fixture.one_file Fixture.six_penguins) Fixture.fresh_kernel
        = (k', Ok ns) /\
      model ns = model0 /\
      y_pred ns = IntS pred /\
      y_test ns = IntS (select (codes (astype_category species0))
                               (test_rows (pandas.len df0))).
Proof.
  assert (Hrect : forall df0, Fixture.parse_text Fixture.six_penguins = Ok df0 ->
                              rectangular df0)
    by apply parse_text_rectangular.
  do 5 eexists; split; [vm_compute; reflexivity|].
  split; [apply Hrect; vm_compute; reflexivity|].
  split; [reflexivity|]; split; [reflexivity|].
  split; [cbn; lia|].
  split; [vm_compute; reflexivity|].
  split; [vm_compute; reflexivity|].
  split; [vm_compute; reflexivity|].
  eapply X4_run_completes;
    [vm_compute; reflexivity
    | apply Hrect; vm_compute; reflexivity
    | reflexivity | reflexivity | cbn; lia
    | vm_compute; reflexivity | vm_compute; reflexivity
    | vm_compute; reflexivity].
Defined.

Lemma X5_witness :
  exists df0 sex0 species0 e,
    read_csv (Fixture.one_file Fixture.one_species) csv_path = Ok df0 /\
    rectangular df0 /\
    lookup df0 "sex" = Some sex0 /\
    lookup df0 "species" = Some species0 /\
    2 <= pandas.len df0 /\
    (fit (feature_table (select (codes (astype_category sex0))
                                (train_rows (pandas.len df0))))
         (IntS (select (codes (astype_category species0))
                       (train_rows (pandas.len df0)))) = Raise e \/
     exists model0,
       fit (feature_table (select (codes (astype_category sex0))
                                  (train_rows (pandas.len df0))))
           (IntS (select (codes (astype_category species0))
                         (train_rows (pandas.len df0)))) = Ok model0 /\
       predict model0
         (feature_table (select (codes (astype_category sex0))
                                (test_rows (pandas.len df0)))) = Raise e) /\
    notebook (Fixture.one_file Fixture.one_species) Fixture.fresh_kernel
      = (table_printed Fixture.fresh_kernel df0, Raise e).
Proof.
  assert (Hrect : forall df0, Fixture.parse_text Fixture.one_species = Ok df0 ->
                              rectangular df0)
    by apply parse_text_rectangular.
  do 4 eexists; split; [vm_compute; reflexivity|].
  split; [apply Hrect; vm_compute; reflexivity|].
  split; [reflexivity|]; split; [reflexivity|].
  split; [cbn; lia|].
  split; [left; vm_compute; reflexivity|].
  eapply X5_classifier_errors_propagate;
    [vm_compute; reflexivity
    | apply Hrect; vm_compute; reflexivity
    | reflexivity | reflexivity | cbn; lia
    | left; vm_compute; reflexivity].
Defined.

Lemma X6_witness :
  exists k' e,
    notebook (Fixture.one_file Fixture.without_sex) Fixture.used_kernel
      = (k', Raise e) /\
    (k' = Fixture.used_kernel \/
     exists df0,
       read_csv (Fixture.one_file Fixture.without_sex) csv_path = Ok df0 /\
       k' = table_printed Fixture.used_kernel df0).
Proof.
  do 2 eexists; split; [vm_compute; reflexivity|].
  eapply X6_failing_run_output; vm_compute; reflexivity.
Defined.

Lemma X8_witness :
  exists df1 df2,
    read_csv (Fixture.one_file Fixture.six_penguins) csv_path = Ok df1 /\
    read_csv (Fixture.crowded Fixture.six_penguins_moved) csv_path = Ok df2 /\
    lookup df1 "sex" = lookup df2 "sex" /\
    lookup df1 "species" = lookup df2 "species" /\
    lookup df1 "island" <> lookup df2 "island" /\
    same_outcome
      (snd (notebook (Fixture.one_file Fixture.six_penguins) Fixture.fresh_kernel))
      (snd (notebook (Fixture.crowded Fixture.six_penguins_moved)
                     Fixture.used_kernel)).
Proof.
  do 2 eexists; split; [vm_compute; reflexivity|].
  split; [vm_compute; reflexivity|].
  split; [reflexivity|]; split; [reflexivity|].
  split; [vm_compute; discriminate|].
  eapply X8_only_two_columns_matter;
    [vm_compute; reflexivity | vm_compute; reflexivity
    | reflexivity | reflexivity].
Defined.

Lemma X9_witness :
  exists k' ns,
    notebook (Fixture.one_file Fixture.six_penguins) Fixture.fresh_kernel
      = (k', Ok ns) /\
    exists df0 sex0 species0 sex_code species_code,
      read_csv (Fixture.one_file Fixture.six_penguins) csv_path = Ok df0 /\
      lookup df0 "sex" = Some sex0 /\
      lookup df0 "species" = Some species0 /\
      X ns = feature_table sex_code /\
      y ns = IntS species_code /\
      dense_codes (n_categories sex0) sex_code /\
      dense_codes (n_categories species0) species_code /\
      n_categories sex0 <= Series_.len sex0 /\
      n_categories species0 <= Series_.len species0.
Proof.
  destruct six_penguins_run as (k' & ns & Hrun).
  exists k', ns; split; [exact Hrun|].
  exact (X9_codes_are_dense _ _ _ _ Hrun).
Defined.

Lemma X10_witness :
  exists k' ns,
    notebook (Fixture.one_file Fixture.six_penguins) Fixture.fresh_kernel
      = (k', Ok ns) /\
    exists df0,
      read_csv (Fixture.one_file Fixture.six_penguins) csv_path = Ok df0 /\
      (forall v, lookup df0 "sex" = Some (ObjectS v) ->
         exists sex_code,
           X ns = feature_table sex_code /\ ordered_codes v sex_code) /\
      (forall v, lookup df0 "species" = Some (ObjectS v) ->
         exists species_code,
           y ns = IntS species_code /\ ordered_codes v species_code).
Proof.
  destruct six_penguins_run as (k' & ns & Hrun).
  exists k', ns; split; [exact Hrun|].
  exact (X10_codes_follow_text_order _ _ _ _ Hrun).
Defined.

(** In the six-penguin file FEMALE sorts before MALE and gets the smaller
    code; the row without sex gets -1. *)
Example female_before_male :
  codes (astype_category
           (ObjectS [Some "MALE"; Some "FEMALE"; None; Some "MALE"]%string))
  = [1; 0; -1; 1]%Z.
Proof. reflexivity. Qed.

Lemma X11_witness :
  exists k' ns sex_code species_code,
    notebook (Fixture.one_file Fixture.four_penguins) Fixture.fresh_kernel
      = (k', Ok ns) /\
    X ns = feature_table sex_code /\
    y ns = IntS species_code /\
    ~ In (-1)%Z sex_code /\
    ~ In (-1)%Z species_code /\
    cell_2 (df ns) Fixture.used_kernel =
    ({| stdout := stdout Fixture.used_kernel ++
          [PrintFloat "Accuracy: " (accuracy ns);
           PrintLine (if Float64.gt (accuracy ns) Float64.lit_0_5
                      then has_power else no_power)];
        np_random := np_random Fixture.used_kernel |},
     Ok ns).
Proof.
  do 4 eexists; split; [vm_compute; reflexivity|].
  split; [reflexivity|]; split; [reflexivity|].
  split; [cbn; lia|]; split; [cbn; lia|].
  eapply (X11_second_run_of_cell_2 (Fixture.one_file Fixture.four_penguins)
                                   Fixture.fresh_kernel);
    [vm_compute; reflexivity | reflexivity | reflexivity | cbn; lia | cbn; lia].
Defined.

(** With a missing sex the second run is not the first: the code -1 of
    the first run is a value like any other for the second, which codes
    it 0 and moves the other codes up by one. *)
Example second_run_recodes_missing :
  exists k' ns k2 ns2,
    notebook (Fixture.one_file Fixture.six_penguins) Fixture.fresh_kernel
      = (k', Ok ns) /\
    X ns = feature_table [1; 0; 0; -1; 1; 0]%Z /\
    cell_2 (df ns) k' = (k2, Ok ns2) /\
    X ns2 = feature_table [2; 1; 1; 0; 2; 1]%Z.
Proof.
  do 4 eexists; split; [vm_compute; reflexivity|].
  split; [reflexivity|]; split; [vm_compute; reflexivity | reflexivity].
Qed.

